(** * Resilient browser-interaction helpers (function.py)

    A shallow embedding of the four helpers of [function.py]
    ([input_text], [click_element], [click_checkbox],
    [select_dropdown_option]) and the properties of their
    retry / fallback behaviour.

    The helpers are straight-line Python over a Selenium session: every
    step is a call into the browser that either returns a value or
    raises.  The embedding therefore is an exception-and-state monad
    over an abstract [Driver]; [try: ... except C: ...] becomes
    [try_except], an early [return] becomes the branch that ends the
    computation. *)

From Stdlib Require Import String List ZArith Bool Arith Lia.
Import ListNotations.
Open Scope string_scope.
Open Scope list_scope.

(** ** Data model *)

(** A locator is the pair [(strategy, value)] the callers build, e.g.
    [(By.ID, "my-id")]. *)
Definition Locator : Type := (string * string)%type.

(** Selenium's [By] constants that the source and its docstrings use. *)
Module By.
Definition ID : string := "id".
Definition XPATH : string := "xpath".
Definition CLASS_NAME : string := "class name".
End By.

(** A [WebElement] is a reference to a node of the rendered page. *)
Definition Element : Type := nat.

(** The exception classes.  The first five are the ones [function.py]
    imports; [ValueError] is what [int(option_text)] raises, and what
    printing an int of too many digits raises;
    [OtherException] stands for every other subclass of Python's
    [Exception] (its argument is the class name).  Every value of this
    type is an instance of [Exception]: the handlers of the source are
    [except Exception], and asynchronous signals of the interpreter
    ([KeyboardInterrupt], [SystemExit]) are not failures of the browser
    layer and are outside the model. *)
Inductive Exn : Type :=
| TimeoutException
| StaleElementReferenceException
| ElementNotInteractableException
| NoSuchElementException
| ElementClickInterceptedException
| ValueError
| OtherException (class_name : string).

(** What [float(timeout)] raises when the int is beyond the range of a
    float. *)
Definition OverflowError : Exn := OtherException "OverflowError".

(** What a call into the browser layer gives back. *)
Inductive result (A : Type) : Type :=
| Ok (a : A)
| Raise (e : Exn).
Arguments Ok {A} a.
Arguments Raise {A} e.

(** Arguments handed to [execute_script] after the script text. *)
Inductive Arg : Type :=
| AElem (e : Element)
| AStr (s : string).

(** The calls the helpers make into the browser layer. *)
Inductive Call : Type :=
| CWaitInvisible (timeout : Z) (loc : Locator)
| CWaitClickable (timeout : Z) (loc : Locator)
| CWaitPresence (timeout : Z) (loc : Locator)
| CExecuteScript (script : string) (args : list Arg)
| CSleep
| CFindElement (loc : Locator)
| CIsEnabled (e : Element)
| CGetAttribute (e : Element) (name : string)
| CClear (e : Element)
| CSendKeys (e : Element) (text : string)
| CClick (e : Element)
| CIsSelected (e : Element)
| CSelect (e : Element)
| CSelectByVisibleText (e : Element) (text : string)
| CSelectByValue (e : Element) (value : string)
| CSelectByIndex (e : Element) (index : Z)
| CFirstSelectedOption (e : Element)
| CText (e : Element)
| COptions (e : Element).

(** What a call gave back: Python values of the kinds the calls return
    ([VNone] for the calls made for their effect only), or the
    exception it raised.  An event is a call with its outcome; the
    helpers' events are recorded in the order they are issued. *)
Inductive Value : Type :=
| VNone
| VBool (b : bool)
| VElem (e : Element)
| VStr (s : string)
| VAttr (a : option string)
| VElems (l : list Element).

Inductive Outcome : Type :=
| Returned (v : Value)
| Raised (e : Exn).

Definition Event : Type := (Call * Outcome)%type.

(** Log records: level, the f-string of the source with its
    placeholders left in place, and the values interpolated into it. *)
Inductive Level : Type := INFO | WARNING | ERROR.

Inductive LogArg : Type :=
| LLoc (l : Locator)
| LStr (s : string)
| LInt (z : Z)
| LBool (b : bool)
| LExn (e : Exn)
| LStrs (l : list string).

Record LogRecord : Type := mkLog {
  level : Level;
  template : string;
  fields : list LogArg
}.

(** ** The browser layer

    A driver is a world (the browser and its page) together with the
    Selenium operations the helpers use.  Each operation may change the
    world and either returns or raises.  Nothing is assumed about how
    the world evolves: a page that changes on its own between two
    calls is a driver whose next operation starts with that change. *)
Record Driver : Type := mkDriver {
  World : Type;
  (* WebDriverWait(driver, t).until(EC.invisibility_of_element_located(loc)) *)
  drv_until_invisibility_of_element_located :
    Z -> Locator -> World -> result unit * World;
  (* WebDriverWait(driver, t).until(EC.element_to_be_clickable(loc)) *)
  drv_until_element_to_be_clickable :
    Z -> Locator -> World -> result Element * World;
  (* WebDriverWait(driver, t).until(EC.presence_of_element_located(loc)) *)
  drv_until_presence_of_element_located :
    Z -> Locator -> World -> result Element * World;
  drv_execute_script : string -> list Arg -> World -> result unit * World;
  drv_find_element : Locator -> World -> result Element * World;
  drv_is_enabled : Element -> World -> result bool * World;
  drv_get_attribute : Element -> string -> World -> result (option string) * World;
  drv_clear : Element -> World -> result unit * World;
  drv_send_keys : Element -> string -> World -> result unit * World;
  drv_click : Element -> World -> result unit * World;
  drv_is_selected : Element -> World -> result bool * World;
  (* Select(element): the constructor checks the tag *)
  drv_Select : Element -> World -> result unit * World;
  drv_select_by_visible_text : Element -> string -> World -> result unit * World;
  drv_select_by_value : Element -> string -> World -> result unit * World;
  drv_select_by_index : Element -> Z -> World -> result unit * World;
  drv_first_selected_option : Element -> World -> result Element * World;
  drv_text : Element -> World -> result string * World;
  drv_options : Element -> World -> result (list Element) * World
}.

(** The two builtins of Python the helpers apply to strings:
    [int(s)] ([None] when it raises [ValueError]) and [s.strip()]. *)
Record Builtins : Type := mkBuiltins {
  py_int : string -> option Z;
  py_strip : string -> string
}.

(** Python truthiness of what [get_attribute] returns ([None] or a
    string). *)
Definition truthy (a : option string) : bool :=
  match a with
  | None => false
  | Some s => negb (String.eqb s "")
  end.

(** Two conversions of the [timeout] argument can raise.

    [WebDriverWait(driver, timeout)] keeps [float(timeout)]: an int
    that rounds to more than the largest double, that is one of
    absolute value [2^1024 - 2^970] or more, raises [OverflowError]
    before anything is polled.

    An f-string that interpolates an int applies [str] to it: CPython
    (3.11, and the security releases before it) refuses to print an
    int of more than 4300 decimal digits, its default
    [int_max_str_digits], and raises [ValueError]. *)
Definition float_limit : Z := Eval vm_compute in (2 ^ 1024 - 2 ^ 970)%Z.

Definition float_overflows (z : Z) : bool := (float_limit <=? Z.abs z)%Z.

Definition int_max_str_digits : Z := 4300.

Definition int_str_limit : Z := Eval vm_compute in (10 ^ int_max_str_digits)%Z.

Definition int_str_too_long (z : Z) : bool := (int_str_limit <=? Z.abs z)%Z.

Arguments float_overflows : simpl never.
Arguments int_str_too_long : simpl never.

(** The script texts of the source. *)
Module Script.
Definition scroll_into_view : string :=
  "arguments[0].scrollIntoView({block: 'center', inline: 'center'});".
Definition read_only_false : string := "arguments[0].readOnly = false;".
Definition disabled_false : string := "arguments[0].disabled = false;".
Definition set_value : string := "arguments[0].value = arguments[1];".
Definition dispatch_input : string :=
  "arguments[0].dispatchEvent(new Event('input', { bubbles: true }));".
Definition dispatch_change : string :=
  "arguments[0].dispatchEvent(new Event('change', { bubbles: true }));".
Definition js_click : string := "arguments[0].click();".
End Script.

(** The overlay both [input_text] and [click_element] wait on. *)
Definition dimmer_holder : Locator := (By.CLASS_NAME, "dimmer-holder").

(** ** The monad of the helpers *)

(** The state threaded through a helper: the world, and what the call
    has done so far (events) and logged so far. *)
Record St (W : Type) : Type := mkSt {
  world : W;
  trace : list Event;
  logs : list LogRecord
}.
Arguments mkSt {W} world trace logs.
Arguments world {W} s.
Arguments trace {W} s.
Arguments logs {W} s.

Definition M (W A : Type) : Type := St W -> result A * St W.

Definition ret {W A} (a : A) : M W A := fun s => (Ok a, s).

Definition bind {W A B} (m : M W A) (k : A -> M W B) : M W B :=
  fun s =>
    match m s with
    | (Ok a, s') => k a s'
    | (Raise e, s') => (Raise e, s')
    end.

Definition raise {W A} (e : Exn) : M W A := fun s => (Raise e, s).

(** [try: body  except ...: handler]; the handler receives the
    exception and picks the clause. *)
Definition try_except {W A} (body : M W A) (handler : Exn -> M W A) : M W A :=
  fun s =>
    match body s with
    | (Ok a, s') => (Ok a, s')
    | (Raise e, s') => handler e s'
    end.

Definition outcome_of {A} (inj : A -> Value) (r : result A) : Outcome :=
  match r with
  | Ok a => Returned (inj a)
  | Raise e => Raised e
  end.

(** A call into the browser layer: the driver acts on the world, and
    the call is recorded with its outcome. *)
Definition invoke {W A} (inj : A -> Value) (c : Call)
    (op : W -> result A * W) : M W A :=
  fun s =>
    let (r, w') := op (world s) in
    (r, mkSt w' (trace s ++ [(c, outcome_of inj r)]) (logs s)).

(** [logger.info / warning / error]. *)
Definition log {W} (l : Level) (t : string) (fs : list LogArg) : M W unit :=
  fun s => (Ok tt, mkSt (world s) (trace s) (logs s ++ [mkLog l t fs])).

(** The f-string of a log line that interpolates the int [z]: it is
    evaluated before the logger is called, and raises when [z] does
    not print. *)
Definition format_int {W} (z : Z) : M W unit :=
  if int_str_too_long z then raise ValueError else ret tt.

(** [time.sleep(0.5)]. *)
Definition sleep {W} : M W unit :=
  fun s =>
    (Ok tt, mkSt (world s) (trace s ++ [(CSleep, Returned VNone)]) (logs s)).

Declare Scope py_scope.
Delimit Scope py_scope with py.
Notation "x <- m ;; k" := (bind m (fun x => k))
  (at level 100, m at next level, right associativity) : py_scope.
Notation "m ;; k" := (bind m (fun _ => k))
  (at level 100, right associativity) : py_scope.
Open Scope py_scope.

Fixpoint for_each {W A B} (f : A -> M W B) (l : list A) : M W (list B) :=
  match l with
  | [] => ret []
  | a :: l' => b <- f a;; bs <- for_each f l';; ret (b :: bs)
  end.

(** Start of a call: the world as it is, nothing called or logged yet. *)
Definition start {W} (w : W) : St W := mkSt w [] [].

(** ** The calls, as the helpers write them *)

Section Calls.

Context (D : Driver).

Definition until_invisibility_of_element_located (timeout : Z) (loc : Locator)
    : M (World D) unit :=
  invoke (fun _ => VNone) (CWaitInvisible timeout loc)
         (drv_until_invisibility_of_element_located D timeout loc).

Definition until_element_to_be_clickable (timeout : Z) (loc : Locator)
    : M (World D) Element :=
  invoke VElem (CWaitClickable timeout loc)
         (drv_until_element_to_be_clickable D timeout loc).

Definition until_presence_of_element_located (timeout : Z) (loc : Locator)
    : M (World D) Element :=
  invoke VElem (CWaitPresence timeout loc)
         (drv_until_presence_of_element_located D timeout loc).

Definition execute_script (script : string) (args : list Arg)
    : M (World D) unit :=
  invoke (fun _ => VNone) (CExecuteScript script args)
         (drv_execute_script D script args).

Definition find_element (loc : Locator) : M (World D) Element :=
  invoke VElem (CFindElement loc) (drv_find_element D loc).

Definition is_enabled (e : Element) : M (World D) bool :=
  invoke VBool (CIsEnabled e) (drv_is_enabled D e).

Definition get_attribute (e : Element) (name : string)
    : M (World D) (option string) :=
  invoke VAttr (CGetAttribute e name) (drv_get_attribute D e name).

Definition clear (e : Element) : M (World D) unit :=
  invoke (fun _ => VNone) (CClear e) (drv_clear D e).

Definition send_keys (e : Element) (keys : string) : M (World D) unit :=
  invoke (fun _ => VNone) (CSendKeys e keys) (drv_send_keys D e keys).

Definition click (e : Element) : M (World D) unit :=
  invoke (fun _ => VNone) (CClick e) (drv_click D e).

Definition is_selected (e : Element) : M (World D) bool :=
  invoke VBool (CIsSelected e) (drv_is_selected D e).

Definition Select (e : Element) : M (World D) unit :=
  invoke (fun _ => VNone) (CSelect e) (drv_Select D e).

Definition select_by_visible_text (e : Element) (t : string)
    : M (World D) unit :=
  invoke (fun _ => VNone) (CSelectByVisibleText e t)
         (drv_select_by_visible_text D e t).

Definition select_by_value (e : Element) (v : string) : M (World D) unit :=
  invoke (fun _ => VNone) (CSelectByValue e v) (drv_select_by_value D e v).

Definition select_by_index (e : Element) (i : Z) : M (World D) unit :=
  invoke (fun _ => VNone) (CSelectByIndex e i) (drv_select_by_index D e i).

Definition first_selected_option (e : Element) : M (World D) Element :=
  invoke VElem (CFirstSelectedOption e) (drv_first_selected_option D e).

Definition text (e : Element) : M (World D) string :=
  invoke VStr (CText e) (drv_text D e).

Definition options (e : Element) : M (World D) (list Element) :=
  invoke VElems (COptions e) (drv_options D e).

End Calls.

Arguments until_invisibility_of_element_located {D}.
Arguments until_element_to_be_clickable {D}.
Arguments until_presence_of_element_located {D}.
Arguments execute_script {D}.
Arguments find_element {D}.
Arguments is_enabled {D}.
Arguments get_attribute {D}.
Arguments clear {D}.
Arguments send_keys {D}.
Arguments click {D}.
Arguments is_selected {D}.
Arguments Select {D}.
Arguments select_by_visible_text {D}.
Arguments select_by_value {D}.
Arguments select_by_index {D}.
Arguments first_selected_option {D}.
Arguments text {D}.
Arguments options {D}.

(** ** The four helpers *)

Section Helpers.

Context (D : Driver) (py : Builtins).

(** *** input_text (function.py, lines 21-94) *)

(** Lines 46-77: the [try] block. *)
Definition input_text_body
    (locator : Locator) (text_ : string) (timeout : Z) (clear_first : bool)
    : M (World D) bool :=
  (* 1. Wait for overlays to disappear *)
  until_invisibility_of_element_located 10 dimmer_holder ;;
  (* 2. Wait for the element to be ready for interaction *)
  element <- until_element_to_be_clickable timeout locator ;;
  (* 3. Scroll element into view *)
  execute_script Script.scroll_into_view [AElem element] ;;
  sleep ;;
  (* 4. Check if element is disabled or readonly:
        [not element.is_enabled() or element.get_attribute("readonly")] *)
  enabled <- is_enabled element ;;
  forced <- (if negb enabled then ret true
             else a <- get_attribute element "readonly" ;; ret (truthy a)) ;;
  (if forced then
     log WARNING
         "Element {locator} is not interactable. Attempting JavaScript fallback."
         [LLoc locator] ;;
     execute_script Script.read_only_false [AElem element] ;;
     execute_script Script.disabled_false [AElem element] ;;
     execute_script Script.set_value [AElem element; AStr text_]
   else
     (* 5. Standard interaction *)
     (if clear_first then clear element else ret tt) ;;
     send_keys element text_) ;;
  (* 6. Trigger events to notify JS frameworks of the change *)
  execute_script Script.dispatch_input [AElem element] ;;
  execute_script Script.dispatch_change [AElem element] ;;
  log INFO "Successfully input text into element {locator}" [LLoc locator] ;;
  ret true.

(** Lines 85-94: the final JavaScript fallback with its own handler. *)
Definition input_text_final_fallback (locator : Locator) (text_ : string)
    : M (World D) bool :=
  try_except
    (log INFO "Attempting final JavaScript fallback to set value." [] ;;
     element <- find_element locator ;;
     execute_script Script.set_value [AElem element; AStr text_] ;;
     execute_script Script.dispatch_input [AElem element] ;;
     log INFO
         "Successfully input text into element {locator} via final JS fallback."
         [LLoc locator] ;;
     ret true)
    (fun js_e =>
       log ERROR "All input methods failed for {locator}: {js_e}"
           [LLoc locator; LExn js_e] ;;
       ret false).

(** Lines 79-94: the [except] clauses, in the order of the source. *)
Definition input_text_handler
    (locator : Locator) (text_ : string) (timeout : Z) (e : Exn)
    : M (World D) bool :=
  match e with
  | TimeoutException =>
      (* line 80: the message is built, then logged; nothing catches
         what building it raises *)
      format_int timeout ;;
      log ERROR
          "Timeout: Element {locator} was not found or clickable within {timeout} seconds."
          [LLoc locator; LInt timeout] ;;
      ret false
  | _ =>
      log ERROR
          "An unexpected error occurred while inputting text into {locator}: {e}"
          [LLoc locator; LExn e] ;;
      input_text_final_fallback locator text_
  end.

Definition input_text
    (locator : Locator) (text_ : string) (timeout : Z) (clear_first : bool)
    : M (World D) bool :=
  log INFO "Attempting to input text into element located by {locator}"
      [LLoc locator] ;;
  try_except (input_text_body locator text_ timeout clear_first)
             (input_text_handler locator text_ timeout).

(** *** click_element (lines 97-153) *)

(** Lines 118-135: the [try] block. *)
Definition click_element_body (locator : Locator) (timeout : Z)
    : M (World D) bool :=
  (* 1. Wait for overlays to disappear *)
  until_invisibility_of_element_located 10 dimmer_holder ;;
  (* 2. Wait for element to be clickable *)
  element <- until_element_to_be_clickable timeout locator ;;
  (* 3. Scroll element into view *)
  execute_script Script.scroll_into_view [AElem element] ;;
  sleep ;;
  (* 4. Standard click *)
  click element ;;
  log INFO "Successfully clicked element {locator} using standard method."
      [LLoc locator] ;;
  ret true.

(** Lines 139-147: the JavaScript click with its own handler. *)
Definition click_element_js_fallback (locator : Locator)
    : M (World D) bool :=
  try_except
    ((* 5. JavaScript fallback click *)
     element <- find_element locator ;;
     execute_script Script.js_click [AElem element] ;;
     log INFO
         "Successfully clicked element {locator} using JavaScript fallback."
         [LLoc locator] ;;
     ret true)
    (fun e =>
       log ERROR "JavaScript click also failed for {locator}: {e}"
           [LLoc locator; LExn e] ;;
       ret false).

(** Lines 137-153: the [except] clauses. *)
Definition click_element_handler (locator : Locator) (timeout : Z) (e : Exn)
    : M (World D) bool :=
  match e with
  | ElementClickInterceptedException =>
      log WARNING
          "Standard click was intercepted for {locator}. Attempting JavaScript click."
          [LLoc locator] ;;
      click_element_js_fallback locator
  | TimeoutException =>
      (* line 149: as line 80 *)
      format_int timeout ;;
      log ERROR
          "Timeout: Element {locator} was not found or clickable within {timeout} seconds."
          [LLoc locator; LInt timeout] ;;
      ret false
  | _ =>
      log ERROR "An unexpected error occurred while clicking {locator}: {e}"
          [LLoc locator; LExn e] ;;
      ret false
  end.

Definition click_element (locator : Locator) (timeout : Z)
    : M (World D) bool :=
  log INFO "Attempting to click element located by {locator}" [LLoc locator] ;;
  try_except (click_element_body locator timeout)
             (click_element_handler locator timeout).

(** *** click_checkbox (lines 156-205) *)

(** Lines 191-198: the final verification. *)
Definition click_checkbox_verify (locator : Locator) (desired_state : bool)
    : M (World D) bool :=
  fresh <- find_element locator ;;
  final_state <- is_selected fresh ;;
  if Bool.eqb final_state desired_state then
    log INFO "SUCCESS: Checkbox {locator} is now in state: {final_state}"
        [LLoc locator; LBool final_state] ;;
    ret true
  else
    log ERROR
        "FAILURE: Checkbox {locator} is in state {final_state}, but expected {desired_state}."
        [LLoc locator; LBool final_state; LBool desired_state] ;;
    ret false.

(** Lines 171-198: the [try] block. *)
Definition click_checkbox_body
    (locator : Locator) (desired_state : bool) (timeout : Z)
    : M (World D) bool :=
  (* Wait for the checkbox to be present *)
  element <- until_presence_of_element_located timeout locator ;;
  (* Scroll to the element *)
  execute_script Script.scroll_into_view [AElem element] ;;
  sleep ;;
  (* Check the current state and click only if necessary *)
  current <- is_selected element ;;
  if negb (Bool.eqb current desired_state) then
    log INFO "Checkbox is not in desired state. Clicking to change." [] ;;
    (* Use the robust click_element function to perform the click *)
    clicked <- click_element locator timeout ;;
    if negb clicked then
      (* If click_element fails, we can't proceed *)
      log ERROR "Failed to click the checkbox {locator}." [LLoc locator] ;;
      ret false
    else click_checkbox_verify locator desired_state
  else
    log INFO "Checkbox {locator} is already in the desired state."
        [LLoc locator] ;;
    click_checkbox_verify locator desired_state.

(** Lines 200-205: the [except] clauses. *)
Definition click_checkbox_handler (locator : Locator) (timeout : Z) (e : Exn)
    : M (World D) bool :=
  match e with
  | TimeoutException =>
      (* line 201: this [timeout] has been through
         [WebDriverWait(driver, timeout)] on line 172, the first
         statement of the [try] block, so it is within float range and
         prints *)
      log ERROR
          "Timeout: Checkbox {locator} was not found within {timeout} seconds."
          [LLoc locator; LInt timeout] ;;
      ret false
  | _ =>
      log ERROR "An unexpected error occurred with checkbox {locator}: {e}"
          [LLoc locator; LExn e] ;;
      ret false
  end.

Definition click_checkbox
    (locator : Locator) (desired_state : bool) (timeout : Z)
    : M (World D) bool :=
  log INFO "Attempting to set checkbox {locator} to state: {desired_state}"
      [LLoc locator; LBool desired_state] ;;
  try_except (click_checkbox_body locator desired_state timeout)
             (click_checkbox_handler locator timeout).

(** *** select_dropdown_option (lines 208-265) *)

(** Lines 246-249: the read-back
    [select.first_selected_option.text.strip()], its log line and the
    success return. *)
Definition select_dropdown_verification (dropdown_element : Element)
    : M (World D) bool :=
  option_element <- first_selected_option dropdown_element ;;
  label <- text option_element ;;
  log INFO "Successfully selected. Current value: '{selected_option}'"
      [LStr (py_strip py label)] ;;
  ret true.

(** Lines 224-249: the [try] block. *)
Definition select_dropdown_body
    (locator : Locator) (option_text by_ : string) (timeout : Z)
    : M (World D) bool :=
  (* Wait for the dropdown element to be present *)
  dropdown_element <- until_presence_of_element_located timeout locator ;;
  (* Scroll to the dropdown *)
  execute_script Script.scroll_into_view [AElem dropdown_element] ;;
  sleep ;;
  (* Use Selenium's Select class for robust interaction *)
  Select dropdown_element ;;
  if String.eqb by_ "visible_text" then
    select_by_visible_text dropdown_element option_text ;;
    select_dropdown_verification dropdown_element
  else if String.eqb by_ "value" then
    select_by_value dropdown_element option_text ;;
    select_dropdown_verification dropdown_element
  else if String.eqb by_ "index" then
    index <- match py_int py option_text with
             | Some i => ret i
             | None => raise ValueError
             end ;;
    select_by_index dropdown_element index ;;
    select_dropdown_verification dropdown_element
  else
    log ERROR
        "Invalid selection method '{by}'. Use 'visible_text', 'value', or 'index'."
        [LStr by_] ;;
    ret false.

(** Lines 254-258: listing the available options; the bare [except]
    swallows whatever that raises. *)
Definition select_dropdown_list_options (locator : Locator)
    : M (World D) unit :=
  try_except
    (element <- find_element locator ;;
     Select element ;;
     opts <- options element ;;
     all_options <- for_each (fun opt => text opt) opts ;;
     log INFO "Available options are: {all_options}" [LStrs all_options])
    (fun _ => ret tt).

(** Lines 251-265: the [except] clauses. *)
Definition select_dropdown_handler
    (locator : Locator) (option_text : string) (timeout : Z) (e : Exn)
    : M (World D) bool :=
  match e with
  | NoSuchElementException =>
      log ERROR "Option '{option_text}' not found in dropdown {locator}."
          [LStr option_text; LLoc locator] ;;
      (* Log available options for easier debugging *)
      select_dropdown_list_options locator ;;
      ret false
  | TimeoutException =>
      (* line 261: as line 201, after line 225 *)
      log ERROR
          "Timeout: Dropdown {locator} was not found within {timeout} seconds."
          [LLoc locator; LInt timeout] ;;
      ret false
  | _ =>
      log ERROR "An unexpected error occurred with dropdown {locator}: {e}"
          [LLoc locator; LExn e] ;;
      ret false
  end.

Definition select_dropdown_option
    (locator : Locator) (option_text by_ : string) (timeout : Z)
    : M (World D) bool :=
  log INFO "Attempting to select '{option_text}' from dropdown {locator}"
      [LStr option_text; LLoc locator] ;;
  try_except (select_dropdown_body locator option_text by_ timeout)
             (select_dropdown_handler locator option_text timeout).

End Helpers.

(** The default values of the keyword arguments. *)
Definition default_timeout : Z := 15.
Definition default_clear_first : bool := true.
Definition default_desired_state : bool := true.
Definition default_by : string := "visible_text".

(** ** A reference page

    A small model of how a browser answers the calls: a page is a list
    of nodes, an element reference is a position in it.  The page is
    static (it changes only through the calls), so the first poll of a
    wait decides: a wait succeeds at once or times out, unless its
    timeout is beyond float range, in which case [WebDriverWait] raises
    before it polls.  A reference that points at no node is stale.
    It instantiates the driver-generic results below and
    carries the claims about what ends up in a field. *)
Module Page.

Inductive Kind : Type := TextField | Checkbox | SelectBox | OptionItem | Other.

Record Node : Type := mkNode {
  locator : Locator;        (* the locator that finds the node *)
  kind : Kind;
  displayed : bool;
  enabled : bool;           (* the node is not [disabled] *)
  readonly : bool;
  covered : bool;           (* another element sits on its click point *)
  value : string;
  selected : bool;          (* [checked] of a checkbox, [selected] of an option *)
  inner_text : string;
  children : list Element;  (* the options of a select *)
  events : list string      (* what was dispatched on the node, in order *)
}.

Definition Page : Type := list Node.

Definition set_readonly (b : bool) (n : Node) : Node :=
  mkNode (locator n) (kind n) (displayed n) (enabled n) b (covered n)
         (value n) (selected n) (inner_text n) (children n) (events n).
Definition set_enabled (b : bool) (n : Node) : Node :=
  mkNode (locator n) (kind n) (displayed n) b (readonly n) (covered n)
         (value n) (selected n) (inner_text n) (children n) (events n).
Definition set_value (v : string) (n : Node) : Node :=
  mkNode (locator n) (kind n) (displayed n) (enabled n) (readonly n) (covered n)
         v (selected n) (inner_text n) (children n) (events n).
Definition set_selected (b : bool) (n : Node) : Node :=
  mkNode (locator n) (kind n) (displayed n) (enabled n) (readonly n) (covered n)
         (value n) b (inner_text n) (children n) (events n).
Definition add_event (ev : string) (n : Node) : Node :=
  mkNode (locator n) (kind n) (displayed n) (enabled n) (readonly n) (covered n)
         (value n) (selected n) (inner_text n) (children n) (events n ++ [ev]).

(** A click that reaches the node: the event, and a checkbox flips. *)
Definition receive_click (n : Node) : Node :=
  add_event "click"
    (match kind n with
     | Checkbox => set_selected (negb (selected n)) n
     | _ => n
     end).

Definition loc_eqb (a b : Locator) : bool :=
  String.eqb (fst a) (fst b) && String.eqb (snd a) (snd b).

(** The first node a locator finds, with its reference. *)
Fixpoint locate (loc : Locator) (p : Page) : option (Element * Node) :=
  match p with
  | [] => None
  | n :: p' =>
      if loc_eqb (locator n) loc then Some (0, n)
      else match locate loc p' with
           | Some (e, m) => Some (S e, m)
           | None => None
           end
  end.

Fixpoint update (e : Element) (f : Node -> Node) (p : Page) : Page :=
  match p, e with
  | [], _ => []
  | n :: p', 0 => f n :: p'
  | n :: p', S e' => n :: update e' f p'
  end.

(** A call on an element: a stale reference raises, otherwise [act]
    decides the outcome and what the node becomes. *)
Definition on_node {A} (e : Element) (act : Node -> result A * Node)
    (p : Page) : result A * Page :=
  match nth_error p e with
  | None => (Raise StaleElementReferenceException, p)
  | Some n => let (r, n') := act n in (r, update e (fun _ => n') p)
  end.

(** [EC.invisibility_of_element_located]: satisfied when the locator
    finds nothing or finds a node that is not displayed. *)
Definition wait_invisible (t : Z) (loc : Locator) (p : Page)
    : result unit * Page :=
  if float_overflows t then (Raise OverflowError, p)
  else match locate loc p with
       | Some (_, n) =>
           if displayed n then (Raise TimeoutException, p) else (Ok tt, p)
       | None => (Ok tt, p)
       end.

(** [EC.element_to_be_clickable]: the locator finds a node that is
    displayed and enabled. *)
Definition wait_clickable (t : Z) (loc : Locator) (p : Page)
    : result Element * Page :=
  if float_overflows t then (Raise OverflowError, p)
  else match locate loc p with
       | Some (e, n) =>
           if displayed n && enabled n then (Ok e, p)
           else (Raise TimeoutException, p)
       | None => (Raise TimeoutException, p)
       end.

(** [EC.presence_of_element_located]: the locator finds a node,
    displayed or not. *)
Definition wait_presence (t : Z) (loc : Locator) (p : Page)
    : result Element * Page :=
  if float_overflows t then (Raise OverflowError, p)
  else match locate loc p with
       | Some (e, _) => (Ok e, p)
       | None => (Raise TimeoutException, p)
       end.

Definition find (loc : Locator) (p : Page) : result Element * Page :=
  match locate loc p with
  | Some (e, _) => (Ok e, p)
  | None => (Raise NoSuchElementException, p)
  end.

Definition javascript_error {A} : result A :=
  Raise (OtherException "JavascriptException").

(** The scripts of the helpers, run in the page: they act on the node
    directly, whatever its flags; a scripted click is not hit-tested,
    and a disabled node ignores it. *)
Definition script (src : string) (args : list Arg) (p : Page)
    : result unit * Page :=
  match args with
  | [AElem e] =>
      if String.eqb src Script.scroll_into_view then
        on_node e (fun n => (Ok tt, n)) p
      else if String.eqb src Script.read_only_false then
        on_node e (fun n => (Ok tt, set_readonly false n)) p
      else if String.eqb src Script.disabled_false then
        on_node e (fun n => (Ok tt, set_enabled true n)) p
      else if String.eqb src Script.dispatch_input then
        on_node e (fun n => (Ok tt, add_event "input" n)) p
      else if String.eqb src Script.dispatch_change then
        on_node e (fun n => (Ok tt, add_event "change" n)) p
      else if String.eqb src Script.js_click then
        on_node e (fun n => (Ok tt, if enabled n then receive_click n else n)) p
      else (javascript_error, p)
  | [AElem e; AStr v] =>
      if String.eqb src Script.set_value then
        on_node e (fun n => (Ok tt, set_value v n)) p
      else (javascript_error, p)
  | _ => (javascript_error, p)
  end.

Definition enabled_of (e : Element) : Page -> result bool * Page :=
  on_node e (fun n => (Ok (enabled n), n)).

(** Only the attribute the helpers read is modelled. *)
Definition attribute_of (e : Element) (name : string)
    : Page -> result (option string) * Page :=
  on_node e (fun n =>
    (Ok (if String.eqb name "readonly" && readonly n then Some "true" else None),
     n)).

(** [element.clear()] needs a displayed, editable node. *)
Definition clear_field (e : Element) : Page -> result unit * Page :=
  on_node e (fun n =>
    if negb (displayed n) then (Raise ElementNotInteractableException, n)
    else if negb (enabled n) || readonly n
         then (Raise (OtherException "InvalidElementStateException"), n)
         else (Ok tt, set_value "" n)).

(** Typing appends to what a writable field holds. *)
Definition type_keys (e : Element) (keys : string) : Page -> result unit * Page :=
  on_node e (fun n =>
    if negb (displayed n && enabled n)
    then (Raise ElementNotInteractableException, n)
    else if readonly n then (Ok tt, n)
         else (Ok tt, set_value (value n ++ keys) n)).

(** The standard click is hit-tested. *)
Definition click_node (e : Element) : Page -> result unit * Page :=
  on_node e (fun n =>
    if negb (displayed n) then (Raise ElementNotInteractableException, n)
    else if covered n then (Raise ElementClickInterceptedException, n)
         else (Ok tt, if enabled n then receive_click n else n)).

Definition selected_of (e : Element) : Page -> result bool * Page :=
  on_node e (fun n => (Ok (selected n), n)).

Definition select_ctor (e : Element) : Page -> result unit * Page :=
  on_node e (fun n =>
    match kind n with
    | SelectBox => (Ok tt, n)
    | _ => (Raise (OtherException "UnexpectedTagNameException"), n)
    end).

(** The first option of [opts] that satisfies [test]. *)
Fixpoint first_option (test : Node -> bool) (opts : list Element) (p : Page)
    : option Element :=
  match opts with
  | [] => None
  | o :: opts' =>
      match nth_error p o with
      | Some n => if test n then Some o else first_option test opts' p
      | None => first_option test opts' p
      end
  end.

(** Choosing [chosen] in a single-selection control deselects the
    other options. *)
Fixpoint choose (chosen : Element) (opts : list Element) (p : Page) : Page :=
  match opts with
  | [] => p
  | o :: opts' =>
      choose chosen opts' (update o (set_selected (Nat.eqb o chosen)) p)
  end.

Definition select_where (test : Node -> bool) (e : Element) (p : Page)
    : result unit * Page :=
  match nth_error p e with
  | None => (Raise StaleElementReferenceException, p)
  | Some n =>
      match first_option test (children n) p with
      | Some o => (Ok tt, choose o (children n) p)
      | None => (Raise NoSuchElementException, p)
      end
  end.

Definition select_text (e : Element) (t : string) :=
  select_where (fun o => String.eqb (inner_text o) t) e.

Definition select_value (e : Element) (v : string) :=
  select_where (fun o => String.eqb (value o) v) e.

Definition select_index (e : Element) (i : Z) (p : Page)
    : result unit * Page :=
  match nth_error p e with
  | None => (Raise StaleElementReferenceException, p)
  | Some n =>
      if (i <? 0)%Z then (Raise NoSuchElementException, p)
      else match nth_error (children n) (Z.to_nat i) with
           | Some o => (Ok tt, choose o (children n) p)
           | None => (Raise NoSuchElementException, p)
           end
  end.

Definition first_selected (e : Element) (p : Page) : result Element * Page :=
  match nth_error p e with
  | None => (Raise StaleElementReferenceException, p)
  | Some n =>
      match first_option selected (children n) p with
      | Some o => (Ok o, p)
      | None => (Raise NoSuchElementException, p)
      end
  end.

Definition text_of (e : Element) : Page -> result string * Page :=
  on_node e (fun n => (Ok (inner_text n), n)).

Definition options_of (e : Element) : Page -> result (list Element) * Page :=
  on_node e (fun n => (Ok (children n), n)).

Definition driver : Driver :=
  mkDriver Page wait_invisible wait_clickable wait_presence script find
           enabled_of attribute_of clear_field type_keys click_node
           selected_of select_ctor select_text select_value select_index
           first_selected text_of options_of.

(** What a test observes of the node a locator finds. *)
Definition observe {A} (get : Node -> A) (loc : Locator) (p : Page) : option A :=
  match locate loc p with
  | Some (_, n) => Some (get n)
  | None => None
  end.

End Page.

(** ** Fault injection

    [Faulty.driver D] answers as [D] does, except that a schedule in
    its world tells which of the coming calls raise instead: entry [k]
    of the schedule is for the [k]-th call from now, [Some e] makes it
    raise [e] without reaching [D].  This is how a page that changes
    under the helper (a node going stale, a control removed between two
    calls) is brought into a run. *)
Module Faulty.

Definition Schedule : Type := list (option Exn).

Definition faulty {W A} (op : W -> result A * W) (ws : W * Schedule)
    : result A * (W * Schedule) :=
  match snd ws with
  | Some e :: rest => (Raise e, (fst ws, rest))
  | None :: rest => let (r, w') := op (fst ws) in (r, (w', rest))
  | [] => let (r, w') := op (fst ws) in (r, (w', []))
  end.

Definition driver (D : Driver) : Driver :=
  mkDriver (World D * Schedule)%type
    (fun t l => faulty (drv_until_invisibility_of_element_located D t l))
    (fun t l => faulty (drv_until_element_to_be_clickable D t l))
    (fun t l => faulty (drv_until_presence_of_element_located D t l))
    (fun s a => faulty (drv_execute_script D s a))
    (fun l => faulty (drv_find_element D l))
    (fun e => faulty (drv_is_enabled D e))
    (fun e n => faulty (drv_get_attribute D e n))
    (fun e => faulty (drv_clear D e))
    (fun e k => faulty (drv_send_keys D e k))
    (fun e => faulty (drv_click D e))
    (fun e => faulty (drv_is_selected D e))
    (fun e => faulty (drv_Select D e))
    (fun e t => faulty (drv_select_by_visible_text D e t))
    (fun e v => faulty (drv_select_by_value D e v))
    (fun e i => faulty (drv_select_by_index D e i))
    (fun e => faulty (drv_first_selected_option D e))
    (fun e => faulty (drv_text D e))
    (fun e => faulty (drv_options D e)).

End Faulty.

(** ** Observations on a run *)

(** How many recorded events are calls of a given sort. *)
Definition count_calls (p : Call -> bool) (tr : list Event) : nat :=
  length (filter (fun ev => p (fst ev)) tr).

Arguments count_calls : simpl never.

Definition is_script (src : string) (c : Call) : bool :=
  match c with
  | CExecuteScript s _ => String.eqb s src
  | _ => false
  end.

Definition is_standard_click (c : Call) : bool :=
  match c with
  | CClick _ => true
  | _ => false
  end.

Definition is_find_element (c : Call) : bool :=
  match c with
  | CFindElement _ => true
  | _ => false
  end.

(** Click attempts of either sort: [element.click()] and the forced
    [arguments[0].click();]. *)
Definition click_attempts (tr : list Event) : nat :=
  count_calls is_standard_click tr + count_calls (is_script Script.js_click) tr.

(** A computation that always hands a value back to its caller. *)
Definition never_raises {W A} (m : M W A) : Prop :=
  forall s, exists a s', m s = (Ok a, s').

(** A computation whose result does not depend on what was recorded
    before it, and which only appends to the records. *)
Definition framed {W A} (m : M W A) : Prop :=
  forall w tr lg,
    m (mkSt w tr lg) =
    (fst (m (start w)),
     mkSt (world (snd (m (start w))))
          (tr ++ trace (snd (m (start w))))
          (lg ++ logs (snd (m (start w))))).

(** The wait for the target element ran into its timeout. *)
Definition element_wait_timed_out (loc : Locator) (tr : list Event) : Prop :=
  exists t, In (CWaitClickable t loc, Raised TimeoutException) tr
            \/ In (CWaitPresence t loc, Raised TimeoutException) tr.

(** The calls by which [select_dropdown_option] lists the available
    options after an option was not found. *)
Definition is_listing_call (c : Call) : bool :=
  match c with
  | CFindElement _ | CSelect _ | COptions _ | CText _ => true
  | _ => false
  end.

(** What the last-resort fallback of [input_text] does, and what the
    helper returns with it: one re-location, then the forced value,
    then the 'input' notification; [true] when all three went through,
    [false] as soon as one of them raised. *)
Inductive final_fallback_events (loc : Locator) (txt : string)
  : list Event -> bool -> Prop :=
| fallback_not_found x :
    final_fallback_events loc txt [(CFindElement loc, Raised x)] false
| fallback_value_failed el x :
    final_fallback_events loc txt
      [(CFindElement loc, Returned (VElem el));
       (CExecuteScript Script.set_value [AElem el; AStr txt], Raised x)]
      false
| fallback_event_failed el x :
    final_fallback_events loc txt
      [(CFindElement loc, Returned (VElem el));
       (CExecuteScript Script.set_value [AElem el; AStr txt], Returned VNone);
       (CExecuteScript Script.dispatch_input [AElem el], Raised x)]
      false
| fallback_done el :
    final_fallback_events loc txt
      [(CFindElement loc, Returned (VElem el));
       (CExecuteScript Script.set_value [AElem el; AStr txt], Returned VNone);
       (CExecuteScript Script.dispatch_input [AElem el], Returned VNone)]
      true.

(** The driver raises [ElementClickInterceptedException] from
    [element.click()] only, as WebDriver has it: the waits and the
    scripts never end with that error. *)
Definition intercept_only_on_click (D : Driver) : Prop :=
  forall w,
    (forall t l,
        fst (drv_until_invisibility_of_element_located D t l w)
        <> Raise ElementClickInterceptedException)
    /\ (forall t l,
           fst (drv_until_element_to_be_clickable D t l w)
           <> Raise ElementClickInterceptedException)
    /\ (forall src args,
           fst (drv_execute_script D src args w)
           <> Raise ElementClickInterceptedException).

(** ** The claims that do not hold as worded

    Each is stated here the way the specification words it, to be
    refuted on a concrete page below. *)

(** The overlay wait is advisory: when it times out, both helpers go on
    to the wait for the target element. *)
Definition overlay_wait_advisory (D : Driver) (w : World D)
    (loc : Locator) (txt : string) (t : Z) (cf : bool) : Prop :=
  fst (drv_until_invisibility_of_element_located D 10 dimmer_holder w)
  = Raise TimeoutException ->
  (exists o, In (CWaitClickable t loc, o)
                (trace (snd (input_text D loc txt t cf (start w))))) /\
  (exists o, In (CWaitClickable t loc, o)
                (trace (snd (click_element D loc t (start w))))).

(** Whatever the [try] block of [input_text] raises, the last-resort
    fallback is attempted exactly once, and [False] is returned only if
    the fallback fails too. *)
Definition fallback_on_every_exception (D : Driver) (w : World D)
    (loc : Locator) (txt : string) (t : Z) (cf : bool) : Prop :=
  forall e,
    fst (input_text_body D loc txt t cf (start w)) = Raise e ->
    count_calls is_find_element
      (trace (snd (input_text D loc txt t cf (start w)))) = 1 /\
    (fst (input_text D loc txt t cf (start w)) = Ok false ->
     fst (input_text_final_fallback D loc txt
            (snd (input_text_body D loc txt t cf (start w)))) = Ok false).


(** The last two events of a run. *)
Fixpoint last_two (tr : list Event) : option (Event * Event) :=
  match tr with
  | [] => None
  | a :: tr' =>
      match tr' with
      | [] => None
      | [b] => Some (a, b)
      | _ => last_two tr'
      end
  end.

(** The run ended with the final verification of [click_checkbox]
    reading state [d] from a freshly located element. *)
Definition verified (loc : Locator) (d : bool) (tr : list Event) : Prop :=
  exists fresh,
    last_two tr = Some ((CFindElement loc, Returned (VElem fresh)),
                        (CIsSelected fresh, Returned (VBool d))).

(** The final verification of [click_checkbox] (lines 191-198) ended
    the run: from the world [wv] that the click or the no-op left,
    after the events [pre], the helper located the element afresh and
    read its checked state; those were the last calls, and the result
    [res] is the comparison of the state read with the desired one, or
    [False] when either call raised. *)
Definition ends_with_fresh_read (D : Driver) (loc : Locator) (d : bool)
    (wv : World D) (pre : list Event) (res : result bool) (tr : list Event)
    : Prop :=
  match drv_find_element D loc wv with
  | (Raise x, _) =>
      res = Ok false /\ tr = pre ++ [(CFindElement loc, Raised x)]
  | (Ok fresh, w') =>
      match drv_is_selected D fresh w' with
      | (Raise x, _) =>
          res = Ok false
          /\ tr = pre ++ [(CFindElement loc, Returned (VElem fresh));
                          (CIsSelected fresh, Raised x)]
      | (Ok b, _) =>
          res = Ok (Bool.eqb b d)
          /\ tr = pre ++ [(CFindElement loc, Returned (VElem fresh));
                          (CIsSelected fresh, Returned (VBool b))]
      end
  end.

(** The selection call that the mode [by_] of [select_dropdown_option]
    dispatches to, applied to the world; [None] when no selection call
    is made (unknown mode, or an index that is no integer). *)
Definition requested_selection (D : Driver) (py : Builtins)
    (by_ option_text : string) (e : Element) (w : World D)
    : option (result unit * World D) :=
  if String.eqb by_ "visible_text" then
    Some (drv_select_by_visible_text D e option_text w)
  else if String.eqb by_ "value" then
    Some (drv_select_by_value D e option_text w)
  else if String.eqb by_ "index" then
    match py_int py option_text with
    | Some i => Some (drv_select_by_index D e i w)
    | None => None
    end
  else None.

(** The page with node [e] replaced by [m]. *)
Definition put (e : Element) (m : Page.Node) (p : Page.Page) : Page.Page :=
  Page.update e (fun _ => m) p.



(** Once the requested option was selected, [select_dropdown_option]
    returns [True] whatever the read-back does. *)
Definition readback_does_not_gate (D : Driver) (py : Builtins) (w : World D)
    (loc : Locator) (option_text by_ : string) (t : Z) : Prop :=
  forall e w1 w2 w3 w4,
    drv_until_presence_of_element_located D t loc w = (Ok e, w1) ->
    drv_execute_script D Script.scroll_into_view [AElem e] w1 = (Ok tt, w2) ->
    drv_Select D e w2 = (Ok tt, w3) ->
    requested_selection D py by_ option_text e w3 = Some (Ok tt, w4) ->
    fst (select_dropdown_option D py loc option_text by_ t (start w)) = Ok true.

(** ** Sample pages *)

Module Sample.

Definition node (loc : Locator) (k : Page.Kind) : Page.Node :=
  Page.mkNode loc k true true false false "" false "" [] [].

Definition email : Locator := (By.ID, "email").
Definition agree : Locator := (By.ID, "agree").
Definition country : Locator := (By.ID, "country").
Definition missing : Locator := (By.ID, "missing").

(** A form that is ready: an empty e-mail field. *)
Definition form : Page.Page := [node email Page.TextField].

(** The same form while the loading overlay is shown. *)
Definition busy_form : Page.Page :=
  [node dimmer_holder Page.Other; node email Page.TextField].


(** The e-mail field is disabled. *)
Definition disabled_form : Page.Page :=
  [Page.mkNode email Page.TextField true false false false "" false "" [] []].

(** The e-mail field is read-only. *)
Definition readonly_form : Page.Page :=
  [Page.mkNode email Page.TextField true true true false "" false "" [] []].

(** An unchecked box with a banner over its click point. *)
Definition covered_box : Page.Page :=
  [Page.mkNode agree Page.Checkbox true true false true "" false "" [] []].

(** A box that is already checked. *)
Definition checked_box : Page.Page :=
  [Page.mkNode agree Page.Checkbox true true false false "" true "" [] []].




(** An unchecked box that is in the page but not displayed (a styled
    control drawn over a hidden input). *)
Definition hidden_box : Page.Page :=
  [Page.mkNode agree Page.Checkbox false true false false "" false "" [] []].

(** A country list with two options, the first one selected. *)
Definition country_list : Page.Page :=
  [Page.mkNode country Page.SelectBox true true false false "" false ""
               [1; 2] [];
   Page.mkNode (By.XPATH, "//option[1]") Page.OptionItem true true false
               false "DE" true "Germany" [] [];
   Page.mkNode (By.XPATH, "//option[2]") Page.OptionItem true true false
               false "ES" false "Spain" [] []].

(** The e-mail field is in the page but not displayed. *)
Definition hidden_form : Page.Page :=
  [Page.mkNode email Page.TextField false true false false "" false "" [] []].

(** The least timeout that does not print: 1 followed by 4300 zeros. *)
Definition unprintable_timeout : Z := int_str_limit.

(** The least timeout that does not convert to a float. *)
Definition overflowing_timeout : Z := float_limit.

(** Builtins for the samples: [int] on plain decimal numerals, and
    [strip] on labels that carry no surrounding blanks. *)
Fixpoint digits (s : string) (acc : Z) : option Z :=
  match s with
  | EmptyString => Some acc
  | String c s' =>
      let n := Ascii.nat_of_ascii c in
      if (48 <=? n)%nat && (n <=? 57)%nat
      then digits s' (10 * acc + Z.of_nat (n - 48))%Z
      else None
  end.

Definition builtins : Builtins :=
  mkBuiltins (fun s => match s with
                       | EmptyString => None
                       | _ => digits s 0%Z
                       end)
             (fun s => s).

End Sample.


(** ** Further observations on a run *)

(** The exception an event raised, if it raised. *)
Definition exn_of (ev : Event) : list Exn :=
  match snd ev with
  | Raised e => [e]
  | Returned _ => []
  end.

(** The exceptions after which the run went on to make further calls:
    those raised by every event but the last. *)
Fixpoint recovered (tr : list Event) : list Exn :=
  match tr with
  | [] => []
  | ev :: tr' =>
      match tr' with
      | [] => []
      | _ :: _ => exn_of ev ++ recovered tr'
      end
  end.

Arguments recovered : simpl never.

(** The last call of the run raised. *)
Definition ended_raising (tr : list Event) : bool :=
  match exn_of (last tr (CSleep, Returned VNone)) with
  | [] => false
  | _ :: _ => true
  end.

Arguments ended_raising : simpl never.

(** Clicks of either sort that went through. *)
Definition is_click_call (c : Call) : bool :=
  is_standard_click c || is_script Script.js_click c.

Definition successful_clicks (tr : list Event) : nat :=
  length (filter (fun ev => is_click_call (fst ev)
                            && match snd ev with
                               | Returned _ => true
                               | Raised _ => false
                               end) tr).

Arguments successful_clicks : simpl never.

Definition is_selection_call (c : Call) : bool :=
  match c with
  | CSelectByVisibleText _ _ | CSelectByValue _ _ | CSelectByIndex _ _ => true
  | _ => false
  end.

Definition is_read_back_call (c : Call) : bool :=
  match c with
  | CFirstSelectedOption _ => true
  | _ => false
  end.

(** [clear()] and [send_keys()]: the simulated user input. *)
Definition is_typing_call (c : Call) : bool :=
  match c with
  | CClear _ | CSendKeys _ _ => true
  | _ => false
  end.

(** The scripts that clear the read-only and disabled flags. *)
Definition is_flag_script (c : Call) : bool :=
  is_script Script.read_only_false c || is_script Script.disabled_false c.

(** The check of step 4 of [input_text] found the field disabled or
    read-only: [is_enabled()] returned [False], or the "readonly"
    attribute came back truthy. *)
Fixpoint found_not_interactable (tr : list Event) : bool :=
  match tr with
  | [] => false
  | (CIsEnabled _, Returned (VBool false)) :: _ => true
  | (CGetAttribute _ _, Returned (VAttr a)) :: tr' =>
      truthy a || found_not_interactable tr'
  | _ :: tr' => found_not_interactable tr'
  end.

(** The elements a call is aimed at, and the elements an outcome hands
    to the helper. *)
Definition script_elements (args : list Arg) : list Element :=
  flat_map (fun a => match a with
                     | AElem e => [e]
                     | AStr _ => []
                     end) args.

Definition aimed_at (c : Call) : list Element :=
  match c with
  | CWaitInvisible _ _ | CWaitClickable _ _ | CWaitPresence _ _
  | CSleep | CFindElement _ => []
  | CExecuteScript _ args => script_elements args
  | CIsEnabled e | CGetAttribute e _ | CClear e | CSendKeys e _ | CClick e
  | CIsSelected e | CSelect e | CSelectByVisibleText e _ | CSelectByValue e _
  | CSelectByIndex e _ | CFirstSelectedOption e | CText e | COptions e => [e]
  end.

Definition provides (o : Outcome) : list Element :=
  match o with
  | Returned (VElem e) => [e]
  | Returned (VElems l) => l
  | _ => []
  end.

(** Every call of the run is aimed at elements that [known] holds or
    that an earlier call of the same run returned. *)
Fixpoint sourced (known : list Element) (tr : list Event) : Prop :=
  match tr with
  | [] => True
  | (c, o) :: tr' =>
      incl (aimed_at c) known /\ sourced (provides o ++ known) tr'
  end.

(** An ERROR record is among the log records. *)
Definition has_error (lg : list LogRecord) : bool :=
  existsb (fun r => match level r with
                    | ERROR => true
                    | _ => false
                    end) lg.

(** The mode and text of a [select_dropdown_option] call lead to no
    selection call: the mode is none of the three, or the mode is
    "index" and the text is no integer. *)
Definition no_selection_requested (py : Builtins) (by_ option_text : string)
    : bool :=
  if String.eqb by_ "visible_text" then false
  else if String.eqb by_ "value" then false
  else if String.eqb by_ "index" then
    match py_int py option_text with
    | Some _ => false
    | None => true
    end
  else true.

(** A computation that leaves the world as it is. *)
Definition keeps_world {W A} (m : M W A) : Prop :=
  forall s, world (snd (m s)) = world s.

(** * Properties *)

(** ** The limits on the timeout *)

Lemma float_limit_eq : float_limit = (2 ^ 1024 - 2 ^ 970)%Z.
Proof. vm_compute. reflexivity. Qed.

Lemma int_str_limit_eq : int_str_limit = (10 ^ 4300)%Z.
Proof. vm_compute. reflexivity. Qed.

(** A timeout that converts to a float prints. *)
Lemma in_float_range_prints (z : Z) :
  float_overflows z = false -> int_str_too_long z = false.
Proof.
  unfold float_overflows, int_str_too_long. intros H.
  apply Z.leb_gt in H. apply Z.leb_gt.
  apply (Z.lt_le_trans _ float_limit); [exact H |].
  apply Z.leb_le. vm_compute. reflexivity.
Qed.

Lemma ordinary_timeouts (z : Z) :
  (Z.abs z < 10 ^ 300)%Z ->
  float_overflows z = false /\ int_str_too_long z = false.
Proof.
  intros H.
  assert (Hf : float_overflows z = false).
  { unfold float_overflows. apply Z.leb_gt.
    apply (Z.lt_le_trans _ (10 ^ 300)); [exact H |].
    apply Z.leb_le. vm_compute. reflexivity. }
  split; [exact Hf | now apply in_float_range_prints].
Qed.

(** ** Laws of the monad *)

Lemma never_raises_ret {W A} (a : A) : never_raises (@ret W A a).
Proof. intros s. exists a, s. reflexivity. Qed.

Lemma never_raises_log {W} l t fs : never_raises (@log W l t fs).
Proof. intros s. eexists; eexists; reflexivity. Qed.

Lemma never_raises_bind {W A B} (m : M W A) (k : A -> M W B) :
  never_raises m -> (forall a, never_raises (k a)) -> never_raises (bind m k).
Proof.
  intros Hm Hk s. unfold bind.
  destruct (Hm s) as (a & s1 & ->). apply Hk.
Qed.

(** A [try] whose handlers all return cannot raise, whatever its body
    does. *)
Lemma never_raises_try_except {W A} (body : M W A) (handler : Exn -> M W A) :
  (forall e, never_raises (handler e)) -> never_raises (try_except body handler).
Proof.
  intros Hh s. unfold try_except.
  destruct (body s) as [[a | e] s1].
  - exists a, s1. reflexivity.
  - apply Hh.
Qed.

Lemma never_raises_format_int {W} (z : Z) :
  int_str_too_long z = false -> never_raises (@format_int W z).
Proof. intros H s. unfold format_int. rewrite H. exists tt, s. reflexivity. Qed.

Create HintDb returns discriminated.
#[export] Hint Resolve never_raises_ret never_raises_log never_raises_bind
  never_raises_try_except : returns.

Section Totality.

Context (D : Driver) (py : Builtins).

Lemma input_text_final_fallback_returns loc txt :
  never_raises (input_text_final_fallback D loc txt).
Proof. unfold input_text_final_fallback. auto with returns. Qed.

Lemma click_element_js_fallback_returns loc :
  never_raises (click_element_js_fallback D loc).
Proof. unfold click_element_js_fallback. auto with returns. Qed.

Lemma select_dropdown_list_options_returns loc :
  never_raises (select_dropdown_list_options D loc).
Proof. unfold select_dropdown_list_options. auto with returns. Qed.

Lemma input_text_returns loc txt t cf :
  int_str_too_long t = false -> never_raises (input_text D loc txt t cf).
Proof.
  intros Ht. pose proof (@never_raises_format_int (World D) t Ht).
  unfold input_text. apply never_raises_bind; auto with returns.
  intros _. apply never_raises_try_except. intros e.
  pose proof (input_text_final_fallback_returns loc txt).
  destruct e; cbn [input_text_handler]; auto with returns.
Qed.

Lemma click_element_returns loc t :
  int_str_too_long t = false -> never_raises (click_element D loc t).
Proof.
  intros Ht. pose proof (@never_raises_format_int (World D) t Ht).
  unfold click_element. apply never_raises_bind; auto with returns.
  intros _. apply never_raises_try_except. intros e.
  pose proof (click_element_js_fallback_returns loc).
  destruct e; cbn [click_element_handler]; auto with returns.
Qed.

Lemma click_checkbox_returns loc d t : never_raises (click_checkbox D loc d t).
Proof.
  unfold click_checkbox. apply never_raises_bind; auto with returns.
  intros _. apply never_raises_try_except. intros e.
  destruct e; cbn [click_checkbox_handler]; auto with returns.
Qed.

Lemma select_dropdown_option_returns loc o b t :
  never_raises (select_dropdown_option D py loc o b t).
Proof.
  unfold select_dropdown_option. apply never_raises_bind; auto with returns.
  intros _. apply never_raises_try_except. intros e.
  pose proof (select_dropdown_list_options_returns loc).
  destruct e; cbn [select_dropdown_handler]; auto with returns.
Qed.

End Totality.

Lemma framed_ret {W A} (a : A) : framed (@ret W A a).
Proof. intros w tr lg. cbn. now rewrite !app_nil_r. Qed.

Lemma framed_raise {W A} (e : Exn) : framed (@raise W A e).
Proof. intros w tr lg. cbn. now rewrite !app_nil_r. Qed.

Lemma framed_log {W} l t fs : framed (@log W l t fs).
Proof. intros w tr lg. cbn. now rewrite app_nil_r. Qed.

Lemma framed_format_int {W} (z : Z) : framed (@format_int W z).
Proof.
  unfold format_int. destruct (int_str_too_long z);
    [apply framed_raise | apply framed_ret].
Qed.

Lemma framed_sleep {W} : framed (@sleep W).
Proof. intros w tr lg. cbn. now rewrite app_nil_r. Qed.

Lemma framed_invoke {W A} (inj : A -> Value) c (op : W -> result A * W) :
  framed (invoke inj c op).
Proof.
  intros w tr lg. unfold invoke. cbn.
  destruct (op w) as [r w']. cbn. now rewrite app_nil_r.
Qed.

Lemma framed_bind {W A B} (m : M W A) (k : A -> M W B) :
  framed m -> (forall a, framed (k a)) -> framed (bind m k).
Proof.
  intros Hm Hk w tr lg. unfold bind.
  rewrite (Hm w tr lg).
  destruct (m (start w)) as [[a | e] [w1 tr1 lg1]]; cbn.
  - rewrite (Hk a w1 (tr ++ tr1) (lg ++ lg1)), (Hk a w1 tr1 lg1).
    cbn. now rewrite !app_assoc.
  - reflexivity.
Qed.

Lemma framed_try_except {W A} (body : M W A) (handler : Exn -> M W A) :
  framed body -> (forall e, framed (handler e)) ->
  framed (try_except body handler).
Proof.
  intros Hb Hh w tr lg. unfold try_except.
  rewrite (Hb w tr lg).
  destruct (body (start w)) as [[a | e] [w1 tr1 lg1]]; cbn.
  - reflexivity.
  - rewrite (Hh e w1 (tr ++ tr1) (lg ++ lg1)), (Hh e w1 tr1 lg1).
    cbn. now rewrite !app_assoc.
Qed.

Lemma framed_if {W A} (b : bool) (m1 m2 : M W A) :
  framed m1 -> framed m2 -> framed (if b then m1 else m2).
Proof. now destruct b. Qed.

Lemma framed_for_each {W A B} (f : A -> M W B) (l : list A) :
  (forall a, framed (f a)) -> framed (for_each f l).
Proof.
  intros Hf. induction l as [| a l IH]; cbn [for_each].
  - apply framed_ret.
  - apply framed_bind; [apply Hf |]. intros b.
    apply framed_bind; [exact IH |]. intros bs. apply framed_ret.
Qed.

Create HintDb frames discriminated.
#[export] Hint Resolve framed_ret framed_raise framed_log framed_format_int
  framed_sleep framed_invoke framed_bind framed_try_except framed_if framed_for_each
  : frames.

(** Unfolding a framed computation at an arbitrary state. *)
Lemma framed_run {W A} (m : M W A) (w : W) tr lg r s' :
  framed m -> m (start w) = (r, s') ->
  m (mkSt w tr lg) = (r, mkSt (world s') (tr ++ trace s') (lg ++ logs s')).
Proof. intros Hm E. rewrite (Hm w tr lg), E. reflexivity. Qed.

(** ** What listing the options does *)

Section Listing.

Context (D : Driver).

Lemma for_each_text_events (opts : list Element) (s : St (World D)) :
  exists r s' tail,
    for_each (fun opt => text opt) opts s = (r, s')
    /\ trace s' = trace s ++ tail
    /\ Forall (fun ev => is_listing_call (fst ev) = true) tail.
Proof.
  revert s. induction opts as [| o opts IH]; intros s; cbn [for_each].
  - exists (Ok []), s, []. now rewrite app_nil_r.
  - unfold bind at 1. unfold text at 1. unfold invoke.
    destruct (drv_text D o (world s)) as [[lbl | e] w1]; cbn.
    + unfold bind at 1.
      match goal with |- context [for_each _ opts ?s1] =>
        destruct (IH s1) as (r & s2 & tail & E & Etr & Htail) end.
      rewrite E. cbn in Etr.
      destruct r as [lbls | e]; cbn.
      * eexists _, _, (_ :: tail). split; [reflexivity |].
        split; [rewrite Etr, <- app_assoc; reflexivity |].
        constructor; [reflexivity | exact Htail].
      * eexists _, _, (_ :: tail). split; [reflexivity |].
        split; [rewrite Etr, <- app_assoc; reflexivity |].
        constructor; [reflexivity | exact Htail].
    + eexists _, _, [_]. split; [reflexivity |]. split; [reflexivity |].
      constructor; [reflexivity | constructor].
Qed.

(** Listing the options never raises, and calls nothing but
    [find_element], [Select], [options] and [text]. *)
Lemma select_dropdown_list_options_spec loc (s : St (World D)) :
  exists s' tail,
    select_dropdown_list_options D loc s = (Ok tt, s')
    /\ trace s' = trace s ++ tail
    /\ Forall (fun ev => is_listing_call (fst ev) = true) tail.
Proof.
  unfold select_dropdown_list_options, try_except.
  unfold bind at 1. unfold find_element at 1. unfold invoke.
  destruct (drv_find_element D loc (world s)) as [[el | e] w1]; cbn;
    [| eexists _, [_]; repeat split; repeat constructor].
  unfold bind at 1. unfold Select at 1. unfold invoke. cbn.
  destruct (drv_Select D el w1) as [[[] | e] w2]; cbn;
    [| eexists _, [_; _]; split; [reflexivity |]; split;
       [now rewrite <- app_assoc | repeat constructor]].
  unfold bind at 1. unfold options at 1. unfold invoke. cbn.
  destruct (drv_options D el w2) as [[opts | e] w3]; cbn;
    [| eexists _, [_; _; _]; split; [reflexivity |]; split;
       [now rewrite <- !app_assoc | repeat constructor]].
  unfold bind at 1.
  match goal with |- context [for_each _ opts ?s1] =>
    destruct (for_each_text_events opts s1) as (r & s2 & tail & E & Etr & Htail)
  end.
  rewrite E. cbn in Etr.
  destruct r as [lbls | e]; cbn.
  - eexists _, (_ :: _ :: _ :: tail). split; [reflexivity |].
    split; [rewrite Etr, <- !app_assoc; reflexivity |].
    repeat (constructor; [reflexivity |]). exact Htail.
  - eexists _, (_ :: _ :: _ :: tail). split; [reflexivity |].
    split; [rewrite Etr, <- !app_assoc; reflexivity |].
    repeat (constructor; [reflexivity |]). exact Htail.
Qed.

End Listing.

(** ** The handlers, by class of exception *)

Lemma Exn_eq_dec (a b : Exn) : {a = b} + {a <> b}.
Proof. decide equality. apply string_dec. Defined.

Section Handlers.

Context (D : Driver).

Lemma input_text_handler_other loc txt t e :
  e <> TimeoutException ->
  input_text_handler D loc txt t e =
  (log ERROR
       "An unexpected error occurred while inputting text into {locator}: {e}"
       [LLoc loc; LExn e] ;;
   input_text_final_fallback D loc txt).
Proof. destruct e; intros H; try reflexivity. now elim H. Qed.

Lemma click_element_handler_other loc t e :
  e <> ElementClickInterceptedException -> e <> TimeoutException ->
  click_element_handler D loc t e =
  (log ERROR "An unexpected error occurred while clicking {locator}: {e}"
       [LLoc loc; LExn e] ;;
   ret false).
Proof. destruct e; intros H1 H2; try reflexivity; now (elim H1 || elim H2). Qed.

Lemma click_checkbox_handler_other loc t e :
  e <> TimeoutException ->
  click_checkbox_handler D loc t e =
  (log ERROR "An unexpected error occurred with checkbox {locator}: {e}"
       [LLoc loc; LExn e] ;;
   ret false).
Proof. destruct e; intros H; try reflexivity. now elim H. Qed.

Lemma select_dropdown_handler_other loc o t e :
  e <> NoSuchElementException -> e <> TimeoutException ->
  select_dropdown_handler D loc o t e =
  (log ERROR "An unexpected error occurred with dropdown {locator}: {e}"
       [LLoc loc; LExn e] ;;
   ret false).
Proof. destruct e; intros H1 H2; try reflexivity; now (elim H1 || elim H2). Qed.

End Handlers.

(** ** Symbolic execution of a helper

    [run] unfolds a helper down to the calls on the driver and splits
    on the outcome of each call in turn, and on the class of a raised
    exception where a handler looks at it. *)

Ltac unfold_calls :=
  unfold until_invisibility_of_element_located, until_element_to_be_clickable,
    until_presence_of_element_located, execute_script, find_element,
    is_enabled, get_attribute, clear, send_keys, click, is_selected, Select,
    select_by_visible_text, select_by_value, select_by_index,
    first_selected_option, text, options in *.

Ltac unfold_helpers :=
  unfold select_dropdown_option, select_dropdown_body,
    select_dropdown_verification, click_checkbox, click_checkbox_body,
    click_checkbox_verify, click_element, click_element_body,
    click_element_js_fallback, input_text, input_text_body,
    input_text_final_fallback in *.

Ltac unfold_monad :=
  unfold format_int, bind, try_except, ret, raise, log, sleep, invoke,
    start in *.

Ltac is_driver_call op :=
  lazymatch op with
  | drv_until_invisibility_of_element_located _ _ _ _ => idtac
  | drv_until_element_to_be_clickable _ _ _ _ => idtac
  | drv_until_presence_of_element_located _ _ _ _ => idtac
  | drv_execute_script _ _ _ _ => idtac
  | drv_find_element _ _ _ => idtac
  | drv_is_enabled _ _ _ => idtac
  | drv_get_attribute _ _ _ _ => idtac
  | drv_clear _ _ _ => idtac
  | drv_send_keys _ _ _ _ => idtac
  | drv_click _ _ _ => idtac
  | drv_is_selected _ _ _ => idtac
  | drv_Select _ _ _ => idtac
  | drv_select_by_visible_text _ _ _ _ => idtac
  | drv_select_by_value _ _ _ _ => idtac
  | drv_select_by_index _ _ _ _ => idtac
  | drv_first_selected_option _ _ _ => idtac
  | drv_text _ _ _ => idtac
  | drv_options _ _ _ => idtac
  end.

Ltac reduce :=
  cbn [input_text_handler click_element_handler click_checkbox_handler
       select_dropdown_handler];
  unfold_helpers; unfold_calls; unfold_monad; cbn -[String.eqb].

Ltac step :=
  match goal with
  | |- context [let (_, _) := ?op in _] =>
      is_driver_call op;
      let E := fresh "E" in
      destruct op as [[? | ?] ?] eqn:E; cbn -[String.eqb]
  | |- context [input_text_handler ?D ?loc ?txt ?t ?e] =>
      is_var e;
      destruct (Exn_eq_dec e TimeoutException) as [-> | ?];
      [ | rewrite (input_text_handler_other D loc txt t e) by assumption ];
      reduce
  | |- context [click_element_handler ?D ?loc ?t ?e] =>
      is_var e;
      destruct (Exn_eq_dec e ElementClickInterceptedException) as [-> | ?];
      [ | destruct (Exn_eq_dec e TimeoutException) as [-> | ?];
          [ | rewrite (click_element_handler_other D loc t e) by assumption ] ];
      reduce
  | |- context [click_checkbox_handler ?D ?loc ?t ?e] =>
      is_var e;
      destruct (Exn_eq_dec e TimeoutException) as [-> | ?];
      [ | rewrite (click_checkbox_handler_other D loc t e) by assumption ];
      reduce
  | |- context [select_dropdown_handler ?D ?loc ?o ?t ?e] =>
      is_var e;
      destruct (Exn_eq_dec e NoSuchElementException) as [-> | ?];
      [ | destruct (Exn_eq_dec e TimeoutException) as [-> | ?];
          [ | rewrite (select_dropdown_handler_other D loc o t e) by assumption ] ];
      reduce
  | |- context [select_dropdown_list_options ?D ?loc ?s] =>
      let w' := fresh "w" in
      let tr' := fresh "tr" in
      let lg' := fresh "lg" in
      let tail := fresh "tail" in
      let E := fresh "E" in
      let Etr := fresh "Etr" in
      let Htail := fresh "Htail" in
      destruct (select_dropdown_list_options_spec D loc s)
        as ([w' tr' lg'] & tail & E & Etr & Htail);
      rewrite E; cbn -[String.eqb] in Etr; subst tr'; cbn -[String.eqb]
  | H : int_str_too_long ?t = _
    |- context [if int_str_too_long ?t then _ else _] =>
      rewrite H; cbn -[String.eqb]
  | |- context [if int_str_too_long ?t then _ else _] =>
      let E := fresh "Eprints" in
      destruct (int_str_too_long t) eqn:E; cbn -[String.eqb]
  | |- context [if negb ?b then _ else _] =>
      is_var b; destruct b; cbn -[String.eqb]
  | |- context [if ?b then _ else _] =>
      is_var b; destruct b; cbn -[String.eqb]
  | |- context [if truthy ?a then _ else _] =>
      let E := fresh "E" in
      destruct (truthy a) eqn:E; cbn -[String.eqb]
  | |- context [if negb (Bool.eqb ?a ?b) then _ else _] =>
      let E := fresh "E" in
      destruct (Bool.eqb a b) eqn:E; cbn -[String.eqb]
  | |- context [if Bool.eqb ?a ?b then _ else _] =>
      let E := fresh "E" in
      destruct (Bool.eqb a b) eqn:E; cbn -[String.eqb]
  | |- context [if String.eqb ?a ?b then _ else _] =>
      is_var a;
      let E := fresh "E" in
      destruct (String.eqb a b) eqn:E; cbn -[String.eqb]
  | |- context [match py_int ?py ?o with Some _ => _ | None => _ end] =>
      let E := fresh "E" in
      destruct (py_int py o) eqn:E; cbn -[String.eqb]
  end.

Ltac run := reduce; repeat step.

(** ** The helpers are framed *)

Ltac frame_tac :=
  cbn [input_text_handler click_element_handler click_checkbox_handler
       select_dropdown_handler];
  unfold select_dropdown_list_options;
  unfold_helpers; unfold_calls;
  repeat first
    [ apply framed_bind | apply framed_try_except | apply framed_if
    | apply framed_for_each | apply framed_ret | apply framed_raise
    | apply framed_log | apply framed_format_int | apply framed_sleep
    | apply framed_invoke
    | match goal with
      | |- forall _, _ => intro
      | |- framed (match ?x with _ => _ end) => destruct x
      end ].

Section Frames.

Context (D : Driver) (py : Builtins).

Lemma framed_input_text_body loc txt t cf :
  framed (input_text_body D loc txt t cf).
Proof. frame_tac. Qed.

Lemma framed_input_text_final_fallback loc txt :
  framed (input_text_final_fallback D loc txt).
Proof. frame_tac. Qed.

Lemma framed_click_element loc t : framed (click_element D loc t).
Proof.
  unfold click_element. apply framed_bind; [apply framed_log | intros _].
  apply framed_try_except; [frame_tac |].
  intros e. destruct e; frame_tac.
Qed.

Lemma framed_click_checkbox loc d t : framed (click_checkbox D loc d t).
Proof.
  unfold click_checkbox. apply framed_bind; [apply framed_log | intros _].
  apply framed_try_except.
  - unfold click_checkbox_body.
    repeat first [ apply framed_click_element | apply framed_bind
                 | apply framed_if | apply framed_invoke | apply framed_sleep
                 | apply framed_log | apply framed_ret
                 | match goal with |- forall _, _ => intro end ].
    all: frame_tac.
  - intros e. destruct e; frame_tac.
Qed.

Lemma framed_select_dropdown_option loc o b t :
  framed (select_dropdown_option D py loc o b t).
Proof.
  unfold select_dropdown_option. apply framed_bind; [apply framed_log | intros _].
  apply framed_try_except; [frame_tac |].
  intros e. destruct e; frame_tac.
Qed.

(** [input_text] is its [try] block, then the handler if the block
    raised; the opening log line is all that comes before. *)
Lemma input_text_unfold loc txt t cf (w : World D) :
  input_text D loc txt t cf (start w) =
  let log0 := mkLog INFO
                "Attempting to input text into element located by {locator}"
                [LLoc loc] in
  let body := input_text_body D loc txt t cf (start w) in
  match fst body with
  | Ok b => (Ok b, mkSt (world (snd body)) (trace (snd body))
                        (log0 :: logs (snd body)))
  | Raise e =>
      input_text_handler D loc txt t e
        (mkSt (world (snd body)) (trace (snd body)) (log0 :: logs (snd body)))
  end.
Proof.
  unfold input_text. unfold bind at 1. cbn [log].
  unfold try_except. cbn [start world trace logs app].
  rewrite (framed_input_text_body loc txt t cf w [] _).
  cbn. destruct (fst (input_text_body D loc txt t cf (start w))); reflexivity.
Qed.

End Frames.

(** ** C1: a boolean outcome, never an exception *)

Section Outcome.

Context (D : Driver) (py : Builtins).

Lemma input_text_false_on_timeout loc txt t cf w :
  int_str_too_long t = false ->
  element_wait_timed_out loc (trace (snd (input_text D loc txt t cf (start w)))) ->
  fst (input_text D loc txt t cf (start w)) = Ok false.
Proof.
  intros Ht. run; try reflexivity.
  all: intros [t' [H | H]]; cbn in H; intuition congruence.
Qed.

Lemma click_element_false_on_timeout loc t w :
  int_str_too_long t = false ->
  element_wait_timed_out loc (trace (snd (click_element D loc t (start w)))) ->
  fst (click_element D loc t (start w)) = Ok false.
Proof.
  intros Ht. run; try reflexivity.
  all: intros [t' [H | H]]; cbn in H; intuition congruence.
Qed.

Lemma click_checkbox_false_on_timeout loc d t w :
  element_wait_timed_out loc (trace (snd (click_checkbox D loc d t (start w)))) ->
  fst (click_checkbox D loc d t (start w)) = Ok false.
Proof.
  run; try reflexivity.
  all: intros [t' [H | H]]; cbn in H; intuition congruence.
Qed.

Lemma select_dropdown_option_false_on_timeout loc o b t w :
  element_wait_timed_out loc
    (trace (snd (select_dropdown_option D py loc o b t (start w)))) ->
  fst (select_dropdown_option D py loc o b t (start w)) = Ok false.
Proof.
  run; try reflexivity.
  all: intros [t' [H | H]]; cbn in H; intuition congruence.
Qed.

(** [click_element] is its [try] block, then the handler if the block
    raised. *)
Lemma click_element_unfold loc t (w : World D) :
  click_element D loc t (start w) =
  let log0 := mkLog INFO "Attempting to click element located by {locator}"
                [LLoc loc] in
  let body := click_element_body D loc t (start w) in
  match fst body with
  | Ok b => (Ok b, mkSt (world (snd body)) (trace (snd body))
                        (log0 :: logs (snd body)))
  | Raise e =>
      click_element_handler D loc t e
        (mkSt (world (snd body)) (trace (snd body)) (log0 :: logs (snd body)))
  end.
Proof.
  unfold click_element. unfold bind at 1. cbn [log].
  unfold try_except. cbn [start world trace logs app].
  assert (Hb : framed (click_element_body D loc t)) by frame_tac.
  rewrite (Hb w [] _).
  cbn. destruct (fst (click_element_body D loc t (start w))); reflexivity.
Qed.

(** What the [except TimeoutException] clause of [input_text] and of
    [click_element] does, by whether [timeout] prints: it logs the
    timeout and returns [False], or [ValueError] leaves the helper
    with nothing logged and nothing called. *)
Lemma input_text_on_timeout loc txt t cf (w : World D) :
  fst (input_text_body D loc txt t cf (start w)) = Raise TimeoutException ->
  let body := input_text_body D loc txt t cf (start w) in
  let r := input_text D loc txt t cf (start w) in
  world (snd r) = world (snd body)
  /\ trace (snd r) = trace (snd body)
  /\ (int_str_too_long t = false ->
      fst r = Ok false
      /\ logs (snd r)
         = mkLog INFO
             "Attempting to input text into element located by {locator}"
             [LLoc loc]
           :: logs (snd body)
           ++ [mkLog ERROR
                 "Timeout: Element {locator} was not found or clickable within {timeout} seconds."
                 [LLoc loc; LInt t]])
  /\ (int_str_too_long t = true ->
      fst r = Raise ValueError
      /\ logs (snd r)
         = mkLog INFO
             "Attempting to input text into element located by {locator}"
             [LLoc loc]
           :: logs (snd body)).
Proof.
  intros Hbody body r. subst r body.
  rewrite input_text_unfold. cbn zeta. rewrite Hbody.
  cbn [input_text_handler]. unfold format_int, bind, raise, ret, log.
  destruct (int_str_too_long t); cbn [fst snd world trace logs];
    (split; [reflexivity |]); (split; [reflexivity |]);
    split; intros H; try discriminate H; split; reflexivity.
Qed.

Lemma click_element_on_timeout loc t (w : World D) :
  fst (click_element_body D loc t (start w)) = Raise TimeoutException ->
  let body := click_element_body D loc t (start w) in
  let r := click_element D loc t (start w) in
  world (snd r) = world (snd body)
  /\ trace (snd r) = trace (snd body)
  /\ (int_str_too_long t = false ->
      fst r = Ok false
      /\ logs (snd r)
         = mkLog INFO "Attempting to click element located by {locator}"
             [LLoc loc]
           :: logs (snd body)
           ++ [mkLog ERROR
                 "Timeout: Element {locator} was not found or clickable within {timeout} seconds."
                 [LLoc loc; LInt t]])
  /\ (int_str_too_long t = true ->
      fst r = Raise ValueError
      /\ logs (snd r)
         = mkLog INFO "Attempting to click element located by {locator}"
             [LLoc loc]
           :: logs (snd body)).
Proof.
  intros Hbody body r. subst r body.
  rewrite click_element_unfold. cbn zeta. rewrite Hbody.
  cbn [click_element_handler]. unfold format_int, bind, raise, ret, log.
  destruct (int_str_too_long t); cbn [fst snd world trace logs];
    (split; [reflexivity |]); (split; [reflexivity |]);
    split; intros H; try discriminate H; split; reflexivity.
Qed.

(** The only exception that leaves [input_text] or [click_element] is
    that [ValueError]. *)
Lemma input_text_raises_only_so loc txt t cf (w : World D) e :
  fst (input_text D loc txt t cf (start w)) = Raise e ->
  e = ValueError /\ int_str_too_long t = true
  /\ fst (input_text_body D loc txt t cf (start w)) = Raise TimeoutException.
Proof.
  run; intros H; cbn in H; try discriminate H.
  all: injection H as <-; auto.
Qed.

Lemma click_element_raises_only_so loc t (w : World D) e :
  fst (click_element D loc t (start w)) = Raise e ->
  e = ValueError /\ int_str_too_long t = true
  /\ fst (click_element_body D loc t (start w)) = Raise TimeoutException.
Proof.
  run; intros H; cbn in H; try discriminate H.
  all: injection H as <-; auto.
Qed.

End Outcome.

(** C1, with the input at which it fails.  [click_checkbox] and
    [select_dropdown_option] hand a boolean back to their caller for
    every driver, locator and arguments, and so do [input_text] and
    [click_element] for every timeout that prints (at most 4300
    digits); that boolean is [False] whenever the wait for the target
    element ran into its timeout.  But when the [try] block of
    [input_text] or [click_element] ends in a [TimeoutException] and
    the timeout has more than 4300 digits, the helper raises
    [ValueError] to its caller, from the log line of its
    [except TimeoutException] clause; that is the only exception that
    ever leaves a helper. *)
Theorem timeout_log_line_raises_to_the_caller
    (D : Driver) (py : Builtins) (loc : Locator) :
  (forall txt t cf,
      int_str_too_long t = false -> never_raises (input_text D loc txt t cf))
  /\ (forall t, int_str_too_long t = false -> never_raises (click_element D loc t))
  /\ (forall d t, never_raises (click_checkbox D loc d t))
  /\ (forall o b t, never_raises (select_dropdown_option D py loc o b t))
  /\ (forall w,
         (forall txt t cf,
             int_str_too_long t = false ->
             element_wait_timed_out loc
               (trace (snd (input_text D loc txt t cf (start w)))) ->
             fst (input_text D loc txt t cf (start w)) = Ok false)
         /\ (forall t,
                int_str_too_long t = false ->
                element_wait_timed_out loc
                  (trace (snd (click_element D loc t (start w)))) ->
                fst (click_element D loc t (start w)) = Ok false)
         /\ (forall d t,
                element_wait_timed_out loc
                  (trace (snd (click_checkbox D loc d t (start w)))) ->
                fst (click_checkbox D loc d t (start w)) = Ok false)
         /\ (forall o b t,
                element_wait_timed_out loc
                  (trace (snd (select_dropdown_option D py loc o b t (start w)))) ->
                fst (select_dropdown_option D py loc o b t (start w)) = Ok false))
  /\ (forall w txt t cf,
         int_str_too_long t = true ->
         (fst (input_text_body D loc txt t cf (start w)) = Raise TimeoutException ->
          fst (input_text D loc txt t cf (start w)) = Raise ValueError)
         /\ (fst (click_element_body D loc t (start w)) = Raise TimeoutException ->
             fst (click_element D loc t (start w)) = Raise ValueError))
  /\ (forall w txt t cf e,
         (fst (input_text D loc txt t cf (start w)) = Raise e ->
          e = ValueError /\ int_str_too_long t = true
          /\ fst (input_text_body D loc txt t cf (start w))
             = Raise TimeoutException)
         /\ (fst (click_element D loc t (start w)) = Raise e ->
             e = ValueError /\ int_str_too_long t = true
             /\ fst (click_element_body D loc t (start w))
                = Raise TimeoutException)).
Proof.
  split; [| split; [| split; [| split; [| split; [| split]]]]].
  - intros. now apply input_text_returns.
  - intros. now apply click_element_returns.
  - intros. apply click_checkbox_returns.
  - intros. apply select_dropdown_option_returns.
  - intros w. split; [| split; [| split]]; intros.
    + now apply input_text_false_on_timeout.
    + now apply click_element_false_on_timeout.
    + now apply click_checkbox_false_on_timeout.
    + now apply select_dropdown_option_false_on_timeout.
  - intros w txt t cf Ht. split; intros Hbody.
    + now apply (input_text_on_timeout D loc txt t cf w Hbody).
    + now apply (click_element_on_timeout D loc t w Hbody).
  - intros w txt t cf e. split.
    + apply input_text_raises_only_so.
    + apply click_element_raises_only_so.
Qed.

(** While the loading overlay is shown, a call with a timeout of 4301
    digits raises [ValueError]. *)
Lemma timeout_log_line_raises_to_the_caller_witness :
  fst (input_text Page.driver Sample.email "a@b.com"
         Sample.unprintable_timeout true (start Sample.busy_form))
  = Raise ValueError
  /\ fst (click_element Page.driver Sample.email Sample.unprintable_timeout
            (start Sample.busy_form))
     = Raise ValueError.
Proof.
  destruct (proj1 (proj2 (proj2 (proj2 (proj2 (proj2
              (timeout_log_line_raises_to_the_caller
                 Page.driver Sample.builtins Sample.email))))))
              Sample.busy_form "a@b.com" Sample.unprintable_timeout true
              eq_refl) as [H1 H2].
  split; [exact (H1 eq_refl) | exact (H2 eq_refl)].
Defined.
(** ** C2: the overlay wait *)

(** An overlay wait that times out ends the [try] block, of
    [input_text] and of [click_element] alike: nothing else was called
    and nothing logged. *)
Lemma input_text_body_stops_at_overlay_timeout
    (D : Driver) (w : World D) (loc : Locator) (txt : string) (t : Z)
    (cf : bool) :
  fst (drv_until_invisibility_of_element_located D 10 dimmer_holder w)
  = Raise TimeoutException ->
  input_text_body D loc txt t cf (start w)
  = (Raise TimeoutException,
     mkSt (snd (drv_until_invisibility_of_element_located D 10 dimmer_holder w))
          [(CWaitInvisible 10 dimmer_holder, Raised TimeoutException)] []).
Proof.
  intros H. reduce.
  destruct (drv_until_invisibility_of_element_located D 10 dimmer_holder w)
    as [[[] | e] w0]; cbn in H; [discriminate |].
  injection H as ->. reflexivity.
Qed.

Lemma click_element_body_stops_at_overlay_timeout
    (D : Driver) (w : World D) (loc : Locator) (t : Z) :
  fst (drv_until_invisibility_of_element_located D 10 dimmer_holder w)
  = Raise TimeoutException ->
  click_element_body D loc t (start w)
  = (Raise TimeoutException,
     mkSt (snd (drv_until_invisibility_of_element_located D 10 dimmer_holder w))
          [(CWaitInvisible 10 dimmer_holder, Raised TimeoutException)] []).
Proof.
  intros H. reduce.
  destruct (drv_until_invisibility_of_element_located D 10 dimmer_holder w)
    as [[[] | e] w0]; cbn in H; [discriminate |].
  injection H as ->. reflexivity.
Qed.

(** [input_text] stops at an overlay wait that times out. *)
Lemma input_text_stops_at_overlay_timeout
    (D : Driver) (w : World D) (loc : Locator) (txt : string) (t : Z)
    (cf : bool) :
  int_str_too_long t = false ->
  fst (drv_until_invisibility_of_element_located D 10 dimmer_holder w)
  = Raise TimeoutException ->
  fst (input_text D loc txt t cf (start w)) = Ok false
  /\ world (snd (input_text D loc txt t cf (start w)))
     = snd (drv_until_invisibility_of_element_located D 10 dimmer_holder w)
  /\ trace (snd (input_text D loc txt t cf (start w)))
     = [(CWaitInvisible 10 dimmer_holder, Raised TimeoutException)].
Proof.
  intros Ht H.
  pose proof (input_text_body_stops_at_overlay_timeout D w loc txt t cf H)
    as Hbody.
  destruct (input_text_on_timeout D loc txt t cf w) as (Hw & Htr & Hok & _);
    [now rewrite Hbody |].
  rewrite Hbody in Hw, Htr. destruct (Hok Ht) as [Hres _]. auto.
Qed.

(** While the overlay stays up, [input_text] and [click_element] stop
    at the overlay wait: the target element is never waited for. *)
Lemma overlay_wait_advisory_refuted :
  ~ overlay_wait_advisory Page.driver Sample.busy_form
      Sample.email "a@b.com" 15 true.
Proof.
  intros H. destruct H as [[o Hin] _]; [reflexivity |].
  vm_compute in Hin. intuition discriminate.
Qed.

(** C2, amended.  The overlay wait is not advisory: for every driver,
    when that wait times out it is the only call [input_text] and
    [click_element] make; and, for a timeout that prints (at most 4300
    digits), they log the timeout as an error and return [False]. *)
Theorem overlay_wait_timeout_is_fatal
    (D : Driver) (w : World D) (loc : Locator) (txt : string) (t : Z)
    (cf : bool) :
  fst (drv_until_invisibility_of_element_located D 10 dimmer_holder w)
  = Raise TimeoutException ->
  let ri := input_text D loc txt t cf (start w) in
  let rc := click_element D loc t (start w) in
  trace (snd ri) = [(CWaitInvisible 10 dimmer_holder, Raised TimeoutException)]
  /\ trace (snd rc) = [(CWaitInvisible 10 dimmer_holder, Raised TimeoutException)]
  /\ (int_str_too_long t = false ->
      fst ri = Ok false
      /\ logs (snd ri)
         = [mkLog INFO
              "Attempting to input text into element located by {locator}"
              [LLoc loc];
            mkLog ERROR
              "Timeout: Element {locator} was not found or clickable within {timeout} seconds."
              [LLoc loc; LInt t]]
      /\ fst rc = Ok false
      /\ logs (snd rc)
         = [mkLog INFO "Attempting to click element located by {locator}"
              [LLoc loc];
            mkLog ERROR
              "Timeout: Element {locator} was not found or clickable within {timeout} seconds."
              [LLoc loc; LInt t]]).
Proof.
  intros H ri rc. subst ri rc.
  pose proof (input_text_body_stops_at_overlay_timeout D w loc txt t cf H)
    as Hi.
  pose proof (click_element_body_stops_at_overlay_timeout D w loc t H) as Hc.
  destruct (input_text_on_timeout D loc txt t cf w) as (_ & Hitr & Hiok & _);
    [now rewrite Hi |].
  destruct (click_element_on_timeout D loc t w) as (_ & Hctr & Hcok & _);
    [now rewrite Hc |].
  rewrite Hi in Hitr, Hiok. rewrite Hc in Hctr, Hcok.
  split; [exact Hitr |]. split; [exact Hctr |].
  intros Ht. destruct (Hiok Ht) as [Hi1 Hi2]. destruct (Hcok Ht) as [Hc1 Hc2].
  auto.
Qed.

(** The busy form, with the default timeout. *)
Lemma overlay_wait_timeout_is_fatal_witness :
  fst (input_text Page.driver Sample.email "a@b.com" 15 true
         (start Sample.busy_form)) = Ok false
  /\ trace (snd (input_text Page.driver Sample.email "a@b.com" 15 true
                   (start Sample.busy_form)))
     = [(CWaitInvisible 10 dimmer_holder, Raised TimeoutException)]
  /\ logs (snd (click_element Page.driver Sample.email 15
                  (start Sample.busy_form)))
     = [mkLog INFO "Attempting to click element located by {locator}"
          [LLoc Sample.email];
        mkLog ERROR
          "Timeout: Element {locator} was not found or clickable within {timeout} seconds."
          [LLoc Sample.email; LInt 15]].
Proof.
  destruct (overlay_wait_timeout_is_fatal Page.driver Sample.busy_form
              Sample.email "a@b.com" 15 true eq_refl) as (H1 & _ & H3).
  destruct (H3 eq_refl) as (H4 & _ & _ & H7).
  split; [exact H4 |]. split; [exact H1 | exact H7].
Defined.

(** ** C3: the last-resort fallback of input_text *)

Section Fallback.

Context (D : Driver) (py : Builtins).

(** The [try] block of [input_text] never re-locates the element. *)
Lemma input_text_body_no_find_element loc txt t cf (w : World D) :
  count_calls is_find_element
    (trace (snd (input_text_body D loc txt t cf (start w)))) = 0.
Proof. run; reflexivity. Qed.

(** The fallback, run after any events [tr], appends one of the four
    sequences of [final_fallback_events] and returns accordingly. *)
Lemma input_text_final_fallback_events loc txt (w : World D) tr lg :
  exists tail b s',
    input_text_final_fallback D loc txt (mkSt w tr lg) = (Ok b, s')
    /\ trace s' = tr ++ tail
    /\ final_fallback_events loc txt tail b.
Proof.
  run.
  all: eexists _, _, _; split; [reflexivity |]; cbn [trace];
    rewrite <- ?app_assoc; cbn [app]; split; [reflexivity | constructor].
Qed.

Lemma count_calls_app p (tr1 tr2 : list Event) :
  count_calls p (tr1 ++ tr2) = count_calls p tr1 + count_calls p tr2.
Proof. unfold count_calls. now rewrite filter_app, length_app. Qed.

Lemma count_calls_cons p (ev : Event) (tr : list Event) :
  count_calls p (ev :: tr)
  = (if p (fst ev) then 1 else 0) + count_calls p tr.
Proof. unfold count_calls. cbn [filter]. now destruct (p (fst ev)). Qed.

Lemma listing_is_no_script src (tail : list Event) :
  Forall (fun ev => is_listing_call (fst ev) = true) tail ->
  count_calls (is_script src) tail = 0.
Proof.
  induction 1 as [| [c o] tail Hc _ IH]; [reflexivity |].
  unfold count_calls in *. cbn [filter fst] in *.
  destruct c; try discriminate Hc; exact IH.
Qed.

Lemma click_element_never_sets_value loc t (w : World D) :
  count_calls (is_script Script.set_value)
    (trace (snd (click_element D loc t (start w)))) = 0.
Proof. run; reflexivity. Qed.

Lemma click_checkbox_never_sets_value loc d t (w : World D) :
  count_calls (is_script Script.set_value)
    (trace (snd (click_checkbox D loc d t (start w)))) = 0.
Proof. run; reflexivity. Qed.

Lemma select_dropdown_option_never_sets_value loc o b t (w : World D) :
  count_calls (is_script Script.set_value)
    (trace (snd (select_dropdown_option D py loc o b t (start w)))) = 0.
Proof.
  run; try reflexivity.
  all: rewrite !count_calls_cons, (listing_is_no_script _ _ Htail);
    reflexivity.
Qed.

End Fallback.

(** A timeout is the exception the claim overlooks: the hidden field
    makes the element wait time out, [input_text] returns [False]
    without re-locating anything, although the fallback would have
    gone through. *)
Lemma fallback_on_every_exception_refuted :
  ~ fallback_on_every_exception Page.driver Sample.hidden_form
      Sample.email "a@b.com" 15 true.
Proof.
  intros H. destruct (H TimeoutException eq_refl) as [Hcount _].
  vm_compute in Hcount. discriminate.
Qed.

(** On that page the fallback, had it been tried after the timeout,
    would have set the value. *)
Lemma hidden_form_fallback_would_succeed :
  fst (input_text_final_fallback Page.driver Sample.email "a@b.com"
         (snd (input_text_body Page.driver Sample.email "a@b.com" 15 true
                 (start Sample.hidden_form)))) = Ok true
  /\ fst (input_text Page.driver Sample.email "a@b.com" 15 true
            (start Sample.hidden_form)) = Ok false.
Proof. split; reflexivity. Qed.

(** C3, amended.  For every exception other than [TimeoutException]
    raised in steps 1-6 of [input_text], the helper attempts the
    last-resort fallback exactly once (re-locate, force the value, fire
    'input') and returns [False] only if a step of that fallback
    raises; a [TimeoutException] ends the call with no fallback, and
    with [False] for a timeout that prints (at most 4300 digits).
    None of the other three helpers ever runs the value-forcing
    script. *)
Theorem input_text_fallback_unless_timeout
    (D : Driver) (py : Builtins) (w : World D) (loc : Locator) (txt : string)
    (t : Z) (cf : bool) :
  (forall e,
      fst (input_text_body D loc txt t cf (start w)) = Raise e ->
      e <> TimeoutException ->
      exists tail b,
        trace (snd (input_text D loc txt t cf (start w)))
        = trace (snd (input_text_body D loc txt t cf (start w))) ++ tail
        /\ final_fallback_events loc txt tail b
        /\ fst (input_text D loc txt t cf (start w)) = Ok b)
  /\ (fst (input_text_body D loc txt t cf (start w)) = Raise TimeoutException ->
      trace (snd (input_text D loc txt t cf (start w)))
      = trace (snd (input_text_body D loc txt t cf (start w)))
      /\ (int_str_too_long t = false ->
          fst (input_text D loc txt t cf (start w)) = Ok false))
  /\ count_calls is_find_element
       (trace (snd (input_text_body D loc txt t cf (start w)))) = 0
  /\ (forall t',
         count_calls (is_script Script.set_value)
           (trace (snd (click_element D loc t' (start w)))) = 0)
  /\ (forall d t',
         count_calls (is_script Script.set_value)
           (trace (snd (click_checkbox D loc d t' (start w)))) = 0)
  /\ (forall o b t',
         count_calls (is_script Script.set_value)
           (trace (snd (select_dropdown_option D py loc o b t' (start w)))) = 0).
Proof.
  split; [| split; [| split; [| split; [| split]]]].
  - intros e Hbody Hne. rewrite input_text_unfold. cbn zeta.
    rewrite Hbody, (input_text_handler_other D loc txt t e Hne).
    unfold bind, log. cbn [world trace logs].
    match goal with |- context [input_text_final_fallback D loc txt ?s] =>
      destruct (input_text_final_fallback_events D loc txt
                  (world s) (trace s) (logs s))
        as (tail & b & s' & E & Etr & Hev)
    end.
    cbn [world trace logs] in E, Etr. rewrite E. cbn [fst snd].
    exists tail, b. auto.
  - intros Hbody.
    destruct (input_text_on_timeout D loc txt t cf w Hbody)
      as (_ & Htr & Hok & _).
    split; [exact Htr |]. intros Ht. now destruct (Hok Ht).
  - apply input_text_body_no_find_element.
  - intros. apply click_element_never_sets_value.
  - intros. apply click_checkbox_never_sets_value.
  - intros. apply select_dropdown_option_never_sets_value.
Qed.

(** The third call of the run (the scroll script) hits a stale
    reference; the fallback then goes through. *)
Lemma input_text_fallback_unless_timeout_witness :
  exists tail b,
    trace (snd (input_text (Faulty.driver Page.driver) Sample.email "a@b.com"
                  15 true
                  (start (Sample.form,
                          [None; None; Some StaleElementReferenceException]))))
    = trace (snd (input_text_body (Faulty.driver Page.driver) Sample.email
                    "a@b.com" 15 true
                    (start (Sample.form,
                            [None; None; Some StaleElementReferenceException]))))
      ++ tail
    /\ final_fallback_events Sample.email "a@b.com" tail b
    /\ fst (input_text (Faulty.driver Page.driver) Sample.email "a@b.com"
              15 true
              (start (Sample.form,
                      [None; None; Some StaleElementReferenceException])))
       = Ok b.
Proof.
  refine (proj1 (input_text_fallback_unless_timeout
                   (Faulty.driver Page.driver) Sample.builtins
                   (Sample.form, [None; None; Some StaleElementReferenceException])
                   Sample.email "a@b.com" 15 true)
                StaleElementReferenceException eq_refl _).
  discriminate.
Defined.

(** ** Paths through the helpers

    What a helper returns and records when the driver answers the
    calls of one path in a given way. *)

Ltac follow :=
  repeat match goal with
         | H : ?op = (_, _) |- context [?op] =>
             rewrite H; cbn -[String.eqb click_element]
         end.

Section Paths.

Context (D : Driver).


(** Steps 1-4 and 6 on a field that reports itself read-only. *)
Lemma input_text_forced_path loc txt t cf w w1 w2 w3 w4 w5 w6 w7 w8 w9 w10 e a :
  drv_until_invisibility_of_element_located D 10 dimmer_holder w = (Ok tt, w1) ->
  drv_until_element_to_be_clickable D t loc w1 = (Ok e, w2) ->
  drv_execute_script D Script.scroll_into_view [AElem e] w2 = (Ok tt, w3) ->
  drv_is_enabled D e w3 = (Ok true, w4) ->
  drv_get_attribute D e "readonly" w4 = (Ok a, w5) ->
  truthy a = true ->
  drv_execute_script D Script.read_only_false [AElem e] w5 = (Ok tt, w6) ->
  drv_execute_script D Script.disabled_false [AElem e] w6 = (Ok tt, w7) ->
  drv_execute_script D Script.set_value [AElem e; AStr txt] w7 = (Ok tt, w8) ->
  drv_execute_script D Script.dispatch_input [AElem e] w8 = (Ok tt, w9) ->
  drv_execute_script D Script.dispatch_change [AElem e] w9 = (Ok tt, w10) ->
  fst (input_text D loc txt t cf (start w)) = Ok true
  /\ world (snd (input_text D loc txt t cf (start w))) = w10.
Proof.
  intros E1 E2 E3 E4 E5 Ha E6 E7 E8 E9 E10. reduce. follow. rewrite Ha.
  cbn -[String.eqb]. follow. auto.
Qed.

(** The element wait times out: nothing is touched after it. *)
Lemma input_text_timeout_path loc txt t cf w w1 w2 :
  int_str_too_long t = false ->
  drv_until_invisibility_of_element_located D 10 dimmer_holder w = (Ok tt, w1) ->
  drv_until_element_to_be_clickable D t loc w1 = (Raise TimeoutException, w2) ->
  fst (input_text D loc txt t cf (start w)) = Ok false
  /\ world (snd (input_text D loc txt t cf (start w))) = w2
  /\ trace (snd (input_text D loc txt t cf (start w)))
     = [(CWaitInvisible 10 dimmer_holder, Returned VNone);
        (CWaitClickable t loc, Raised TimeoutException)].
Proof.
  intros Ht E1 E2. reduce. follow. unfold format_int. rewrite Ht. cbn. auto.
Qed.

End Paths.

(** ** Facts about the reference page *)

Section PageFacts.

Import Page.

Lemma locate_nth loc (p : Page) e n :
  locate loc p = Some (e, n) -> nth_error p e = Some n.
Proof.
  revert e. induction p as [| m p IH]; intros e H; cbn in H; [discriminate |].
  destruct (loc_eqb (locator m) loc).
  - now injection H as <- <-.
  - destruct (locate loc p) as [[e' n'] |]; [| discriminate].
    injection H as <- <-. cbn. now apply IH.
Qed.

Lemma put_self (p : Page) e n : nth_error p e = Some n -> put e n p = p.
Proof.
  revert e. induction p as [| m p IH]; intros [| e] H; cbn in *;
    try discriminate.
  - now injection H as ->.
  - unfold put in IH. now rewrite IH.
Qed.

Lemma nth_put (p : Page) e n m :
  nth_error p e = Some n -> nth_error (put e m p) e = Some m.
Proof.
  revert e. induction p as [| k p IH]; intros [| e] H; cbn in *;
    try discriminate; [reflexivity | now apply IH].
Qed.

Lemma put_put (p : Page) e a b : put e a (put e b p) = put e a p.
Proof.
  revert e. induction p as [| k p IH]; intros [| e]; cbn; try reflexivity.
  unfold put in IH. now rewrite IH.
Qed.

(** Replacing a node by one with the same locator does not change what
    the locators find. *)
Lemma locate_put l (p : Page) e n m :
  nth_error p e = Some n -> locator m = locator n ->
  locate l (put e m p)
  = match locate l p with
    | Some (i, x) => Some (i, if Nat.eqb i e then m else x)
    | None => None
    end.
Proof.
  revert e. induction p as [| k p IH]; intros [| e] H Hl; cbn in *;
    try discriminate.
  - injection H as ->. rewrite Hl.
    destruct (loc_eqb (locator n) l); [reflexivity |].
    now destruct (locate l p) as [[i x] |].
  - destruct (loc_eqb (locator k) l); [reflexivity |].
    unfold put in IH. rewrite (IH e H Hl).
    now destruct (locate l p) as [[i x] |].
Qed.

Lemma locate_put_same l (p : Page) e n m :
  locate l p = Some (e, n) -> locator m = locator n ->
  locate l (put e m p) = Some (e, m).
Proof.
  intros H Hl. rewrite (locate_put l p e n m (locate_nth _ _ _ _ H) Hl), H.
  now rewrite Nat.eqb_refl.
Qed.

Lemma on_node_at {A} (p : Page) e n (act : Node -> result A * Node) :
  nth_error p e = Some n ->
  on_node e act p = (fst (act n), put e (snd (act n)) p).
Proof. intros H. unfold on_node. rewrite H. now destruct (act n). Qed.

Lemma on_node_put {A} (p : Page) e n m (act : Node -> result A * Node) :
  nth_error p e = Some n ->
  on_node e act (put e m p) = (fst (act m), put e (snd (act m)) p).
Proof.
  intros H. rewrite (on_node_at _ e m act (nth_put p e n m H)).
  now rewrite put_put.
Qed.

(** The overlay wait sees the same thing after a node was replaced by
    one with the same locator and visibility. *)
Lemma wait_invisible_put t l (p : Page) e n m :
  nth_error p e = Some n -> locator m = locator n ->
  displayed m = displayed n ->
  wait_invisible t l (put e m p)
  = (fst (wait_invisible t l p), put e m p).
Proof.
  intros H Hl Hd. unfold wait_invisible.
  destruct (float_overflows t); [reflexivity |].
  rewrite (locate_put l p e n m H Hl).
  destruct (locate l p) as [[i x] |] eqn:E; [| reflexivity].
  destruct (Nat.eqb_spec i e) as [-> | _].
  - apply locate_nth in E. rewrite E in H. injection H as ->.
    rewrite Hd. now destruct (displayed n).
  - now destruct (displayed x).
Qed.

(** The waits on the page, for a timeout within float range. *)
Lemma wait_invisible_ok (p : Page) t l :
  fst (wait_invisible t l p) = Ok tt -> wait_invisible t l p = (Ok tt, p).
Proof.
  unfold wait_invisible. destruct (float_overflows t); [discriminate |].
  destruct (locate l p) as [[i x] |]; [destruct (displayed x) |];
    now try discriminate.
Qed.

Lemma wait_clickable_ready (p : Page) t l e n :
  float_overflows t = false -> locate l p = Some (e, n) ->
  displayed n = true -> enabled n = true ->
  wait_clickable t l p = (Ok e, p).
Proof.
  intros Ht Hloc Hd He. unfold wait_clickable. now rewrite Ht, Hloc, Hd, He.
Qed.

Lemma wait_presence_found (p : Page) t l e n :
  float_overflows t = false -> locate l p = Some (e, n) ->
  wait_presence t l p = (Ok e, p).
Proof. intros Ht Hloc. unfold wait_presence. now rewrite Ht, Hloc. Qed.

(** A wait that times out had a timeout within float range, and left
    the page as it was. *)
Lemma wait_clickable_timeout (p : Page) t l :
  fst (wait_clickable t l p) = Raise TimeoutException ->
  float_overflows t = false
  /\ wait_clickable t l p = (Raise TimeoutException, p).
Proof.
  unfold wait_clickable. destruct (float_overflows t); [discriminate |].
  destruct (locate l p) as [[i x] |];
    [destruct (displayed x && enabled x) |]; now try discriminate.
Qed.

(** The overlay wait of the helpers, with its timeout of 10: the
    overlay is gone, or the wait times out. *)
Lemma wait_for_overlay_cases (p : Page) :
  wait_invisible 10 dimmer_holder p = (Ok tt, p)
  \/ wait_invisible 10 dimmer_holder p = (Raise TimeoutException, p).
Proof.
  unfold wait_invisible.
  replace (float_overflows 10) with false by reflexivity.
  destruct (locate dimmer_holder p) as [[i x] |]; [destruct (displayed x) |];
    auto.
Qed.

End PageFacts.

(** ** C4: a writable field *)




(** ** C5: a disabled or read-only field *)

(** A read-only field does take the force path: the flags are
    cleared and the value is set by script. *)
Lemma input_text_forces_read_only_field
    (p : Page.Page) (loc : Locator) (txt : string) (t : Z) (cf : bool)
    (e : Element) (n : Page.Node) :
  Page.locate loc p = Some (e, n) ->
  Page.displayed n = true -> Page.enabled n = true ->
  Page.readonly n = true ->
  fst (Page.wait_invisible 10 dimmer_holder p) = Ok tt ->
  float_overflows t = false ->
  let r := input_text Page.driver loc txt t cf (start p) in
  fst r = Ok true
  /\ Page.observe Page.value loc (world (snd r)) = Some txt
  /\ Page.observe Page.readonly loc (world (snd r)) = Some false
  /\ Page.observe Page.enabled loc (world (snd r)) = Some true.
Proof.
  intros Hloc Hd He Hr Hov Ht r.
  pose proof (locate_nth _ _ _ _ Hloc) as Hn.
  set (n1 := Page.set_readonly false n).
  set (n2 := Page.set_enabled true n1).
  set (n3 := Page.set_value txt n2).
  set (n4 := Page.add_event "input" n3).
  set (n5 := Page.add_event "change" n4).
  destruct (input_text_forced_path Page.driver loc txt t cf
              p p p p p p (put e n1 p) (put e n2 p) (put e n3 p)
              (put e n4 p) (put e n5 p) e (Some "true"))
    as [Hres Hworld];
    cbn [Page.driver drv_until_invisibility_of_element_located
         drv_until_element_to_be_clickable drv_execute_script
         drv_is_enabled drv_get_attribute].
  - now apply wait_invisible_ok.
  - now apply (wait_clickable_ready p t loc e n).
  - cbn. rewrite (on_node_at p e n _ Hn). cbn. now rewrite put_self.
  - unfold Page.enabled_of. rewrite (on_node_at p e n _ Hn). cbn.
    now rewrite He, put_self.
  - unfold Page.attribute_of. rewrite (on_node_at p e n _ Hn). cbn.
    now rewrite Hr, put_self.
  - reflexivity.
  - cbn. now rewrite (on_node_at p e n _ Hn).
  - cbn. now rewrite (on_node_put p e n n1 _ Hn).
  - cbn. now rewrite (on_node_put p e n n2 _ Hn).
  - cbn. now rewrite (on_node_put p e n n3 _ Hn).
  - cbn. now rewrite (on_node_put p e n n4 _ Hn).
  - split; [exact Hres |].
    replace (world (snd r)) with (put e n5 p) by (symmetry; exact Hworld).
    unfold Page.observe.
    rewrite (locate_put_same loc p e n n5 Hloc) by reflexivity.
    auto.
Qed.

(** C5, at the failing input.  A disabled field never becomes
    clickable, so [input_text], for every timeout within float range,
    waits, times out and returns [False]: the page is left as it was,
    the field still disabled and without the value, and no script
    ran. *)
Theorem input_text_disabled_field_times_out
    (p : Page.Page) (loc : Locator) (txt : string) (t : Z) (cf : bool)
    (e : Element) (n : Page.Node) :
  Page.locate loc p = Some (e, n) ->
  Page.enabled n = false ->
  float_overflows t = false ->
  let r := input_text Page.driver loc txt t cf (start p) in
  fst r = Ok false
  /\ world (snd r) = p
  /\ Page.observe Page.enabled loc (world (snd r)) = Some false
  /\ Page.observe Page.value loc (world (snd r)) = Some (Page.value n)
  /\ count_calls (is_script Script.disabled_false) (trace (snd r)) = 0
  /\ count_calls (is_script Script.set_value) (trace (snd r)) = 0.
Proof.
  intros Hloc He Ht r.
  pose proof (in_float_range_prints t Ht) as Hprints.
  assert (H : fst r = Ok false /\ world (snd r) = p
              /\ count_calls (is_script Script.disabled_false) (trace (snd r)) = 0
              /\ count_calls (is_script Script.set_value) (trace (snd r)) = 0).
  { destruct (wait_for_overlay_cases p) as [Hov | Hov].
    - destruct (input_text_timeout_path Page.driver loc txt t cf p p p
                  Hprints Hov)
        as (H1 & H2 & H3).
      { cbn. unfold Page.wait_clickable.
        now rewrite Ht, Hloc, He, andb_false_r. }
      subst r. cbn [World Page.driver] in *. rewrite H1, H2, H3. auto.
    - destruct (input_text_stops_at_overlay_timeout Page.driver p loc txt t cf
                  Hprints)
        as (H1 & H2 & H3).
      { cbn. now rewrite Hov. }
      cbn [Page.driver drv_until_invisibility_of_element_located] in H2.
      rewrite Hov in H2.
      subst r. cbn [World Page.driver] in *. rewrite H1, H2, H3. auto. }
  destruct H as (H1 & H2 & H3 & H4).
  repeat (split; [assumption |]). unfold Page.observe.
  rewrite H2, Hloc, He. auto.
Qed.

Lemma input_text_disabled_field_times_out_witness :
  fst (input_text Page.driver Sample.email "a@b.com" 15 true
         (start Sample.disabled_form)) = Ok false
  /\ world (snd (input_text Page.driver Sample.email "a@b.com" 15 true
                   (start Sample.disabled_form))) = Sample.disabled_form.
Proof.
  destruct (input_text_disabled_field_times_out Sample.disabled_form
              Sample.email "a@b.com" 15 true 0 _ eq_refl eq_refl eq_refl)
    as (H1 & H2 & _).
  split; [exact H1 | exact H2].
Defined.

(** Beyond float range the element wait does not time out, it raises
    [OverflowError]: the call goes to the last-resort fallback, which
    sets the value of the disabled field by script and returns
    [True]. *)
Lemma input_text_disabled_field_beyond_float_range :
  let r := input_text Page.driver Sample.email "a@b.com"
             Sample.overflowing_timeout true (start Sample.disabled_form) in
  fst r = Ok true
  /\ Page.observe Page.value Sample.email (world (snd r)) = Some "a@b.com"
  /\ Page.observe Page.enabled Sample.email (world (snd r)) = Some false.
Proof. vm_compute. auto. Qed.

(** ** C6: the forced click *)

(** The reference page raises the click-intercepted error from the
    standard click only. *)
Lemma page_intercept_only_on_click : intercept_only_on_click Page.driver.
Proof.
  intros p. cbn. split; [| split].
  - intros t l. unfold Page.wait_invisible.
    destruct (float_overflows t); [discriminate |].
    destruct (Page.locate l p) as [[i x] |]; [destruct (Page.displayed x) |];
      discriminate.
  - intros t l. unfold Page.wait_clickable.
    destruct (float_overflows t); [discriminate |].
    destruct (Page.locate l p) as [[i x] |];
      [destruct (Page.displayed x && Page.enabled x) |]; discriminate.
  - intros src args. unfold Page.script, Page.on_node, Page.javascript_error.
    repeat match goal with
           | |- context [match ?x with _ => _ end] => destruct x
           end; cbn; discriminate.
Qed.

Ltac refute_intercept Honly :=
  match goal with
  | E : drv_until_invisibility_of_element_located _ ?t ?l ?w
        = (Raise ElementClickInterceptedException, _) |- _ =>
      exfalso; apply (proj1 (Honly w) t l); now rewrite E
  | E : drv_until_element_to_be_clickable _ ?t ?l ?w
        = (Raise ElementClickInterceptedException, _) |- _ =>
      exfalso; apply (proj1 (proj2 (Honly w)) t l); now rewrite E
  | E : drv_execute_script _ ?src ?args ?w
        = (Raise ElementClickInterceptedException, _) |- _ =>
      exfalso; apply (proj2 (proj2 (Honly w)) src args); now rewrite E
  end.

(** C6, with the input at which it fails.  [click_element] runs the
    forced click only right after the standard click raised
    [ElementClickInterceptedException] and the element was re-located;
    an intercepted standard click is always followed by the
    re-location; and when the [try] block fails with any other
    exception the helper makes no forced click and no further call.
    It then returns [False], except after a [TimeoutException] with a
    timeout of more than 4300 digits: there the log line of the
    handler raises [ValueError] to the caller. *)
Theorem forced_click_only_after_intercepted_click
    (D : Driver) (w : World D) (loc : Locator) (t : Z) :
  intercept_only_on_click D ->
  let r := click_element D loc t (start w) in
  (forall args o,
      In (CExecuteScript Script.js_click args, o) (trace (snd r)) ->
      exists pre el el',
        trace (snd r)
        = pre ++ [(CClick el, Raised ElementClickInterceptedException);
                  (CFindElement loc, Returned (VElem el'));
                  (CExecuteScript Script.js_click [AElem el'], o)])
  /\ (forall el,
         In (CClick el, Raised ElementClickInterceptedException) (trace (snd r)) ->
         exists o, In (CFindElement loc, o) (trace (snd r)))
  /\ (forall e,
         fst (click_element_body D loc t (start w)) = Raise e ->
         e <> ElementClickInterceptedException ->
         trace (snd r) = trace (snd (click_element_body D loc t (start w)))
         /\ count_calls (is_script Script.js_click) (trace (snd r)) = 0
         /\ (e <> TimeoutException \/ int_str_too_long t = false ->
             fst r = Ok false)
         /\ (e = TimeoutException -> int_str_too_long t = true ->
             fst r = Raise ValueError)).
Proof.
  intros Honly r. subst r. split; [| split].
  - intros args o. run; try refute_intercept Honly.
    all: unfold Script.js_click, Script.scroll_into_view; cbn -[String.eqb];
      intros Hin;
      repeat match goal with
             | H : _ \/ _ |- _ => destruct H as [H | H]
             | H : (_, _) = (_, _) |- _ => try discriminate H; injection H as H
             | H : False |- _ => destruct H
             end.
    all: subst; eexists [_; _; _; _], _, _; reflexivity.
  - intros el. run; try refute_intercept Honly.
    all: cbn -[String.eqb]; intros Hin;
      repeat match goal with
             | H : _ \/ _ |- _ => destruct H as [H | H]
             | H : (_, _) = (_, _) |- _ => try discriminate H; injection H as H
             | H : False |- _ => destruct H
             end.
    all: eexists; cbn; eauto 10.
  - intros e. run; intros He Hne; cbn in He; try discriminate He;
      try (injection He as <-); try (now elim Hne).
    all: split; [reflexivity |]; split; [reflexivity |]; split;
      [intros [Hx | Hx] | intros Hx Hy];
      first [reflexivity | congruence].
  Unshelve. all: exact (Returned VNone).
Qed.

(** A covered checkbox: the standard click is intercepted, the forced
    click goes through.  And the failing input: while the loading
    overlay is shown, a call with a timeout of 4301 digits raises. *)
Lemma forced_click_only_after_intercepted_click_witness :
  (exists pre el el',
      trace (snd (click_element Page.driver Sample.agree 15
                    (start Sample.covered_box)))
      = pre ++ [(CClick el, Raised ElementClickInterceptedException);
                (CFindElement Sample.agree, Returned (VElem el'));
                (CExecuteScript Script.js_click [AElem el'], Returned VNone)])
  /\ fst (click_element Page.driver Sample.email Sample.unprintable_timeout
            (start Sample.busy_form))
     = Raise ValueError.
Proof.
  split.
  - apply (proj1 (forced_click_only_after_intercepted_click
                    Page.driver Sample.covered_box Sample.agree 15
                    page_intercept_only_on_click)
                 [AElem 0] (Returned VNone)).
    vm_compute. tauto.
  - refine (proj2 (proj2 (proj2
              (proj2 (proj2 (forced_click_only_after_intercepted_click
                               Page.driver Sample.busy_form Sample.email
                               Sample.unprintable_timeout
                               page_intercept_only_on_click))
                     TimeoutException eq_refl _))) eq_refl eq_refl).
    discriminate.
Defined.

(** ** C8: the final verification of click_checkbox *)

Section Checkbox.

Context (D : Driver).

Ltac split_in :=
  repeat match goal with
         | H : _ \/ _ |- _ => destruct H as [H | H]
         | H : (_, _) = (_, _) |- _ => try discriminate H; injection H as H
         | H : False |- _ => destruct H
         end.

(** [True] comes back exactly when the run ended with the fresh read
    of the desired state. *)
Lemma click_checkbox_true_iff_verified loc d t (w : World D) :
  fst (click_checkbox D loc d t (start w)) = Ok true
  <-> verified loc d (trace (snd (click_checkbox D loc d t (start w)))).
Proof.
  unfold verified. run.
  all: split;
    [ intros H; try discriminate H
    | intros [fresh H]; try discriminate H ].
  all: try (eexists; f_equal; f_equal; f_equal; f_equal; f_equal;
            now apply eqb_prop).
  all: try reflexivity.
  all: injection H as _ _ Hb; subst;
    match goal with E : Bool.eqb ?b ?b = false |- _ =>
      now rewrite eqb_reflx in E end.
Qed.

(** The part of a run up to the delegated click, and what follows when
    [click_element] reports failure: nothing. *)
Lemma click_checkbox_stops_on_failed_click loc d t w e w1 w2 cur w3 s' :
  drv_until_presence_of_element_located D t loc w = (Ok e, w1) ->
  drv_execute_script D Script.scroll_into_view [AElem e] w1 = (Ok tt, w2) ->
  drv_is_selected D e w2 = (Ok cur, w3) ->
  cur <> d ->
  click_element D loc t (start w3) = (Ok false, s') ->
  fst (click_checkbox D loc d t (start w)) = Ok false
  /\ world (snd (click_checkbox D loc d t (start w))) = world s'
  /\ trace (snd (click_checkbox D loc d t (start w)))
     = [(CWaitPresence t loc, Returned (VElem e));
        (CExecuteScript Script.scroll_into_view [AElem e], Returned VNone);
        (CSleep, Returned VNone);
        (CIsSelected e, Returned (VBool cur))] ++ trace s'.
Proof.
  intros E1 E2 E3 Hcur Hclick.
  unfold click_checkbox, click_checkbox_body.
  unfold until_presence_of_element_located, execute_script, is_selected.
  unfold bind, try_except, ret, log, sleep, invoke.
  cbn -[String.eqb click_element]. follow.
  replace (Bool.eqb cur d) with false
    by (destruct cur, d; try reflexivity; now elim Hcur).
  cbn -[String.eqb click_element].
  rewrite (framed_run (click_element D loc t) w3 _ _ (Ok false) s'
             (framed_click_element D loc t) Hclick).
  cbn. auto.
Qed.

(** The delegated click raised: the generic handler of
    [click_checkbox] returns [False], and nothing more is called. *)
Lemma click_checkbox_stops_on_raising_click loc d t w e w1 w2 cur w3 x s' :
  drv_until_presence_of_element_located D t loc w = (Ok e, w1) ->
  drv_execute_script D Script.scroll_into_view [AElem e] w1 = (Ok tt, w2) ->
  drv_is_selected D e w2 = (Ok cur, w3) ->
  cur <> d ->
  click_element D loc t (start w3) = (Raise x, s') ->
  fst (click_checkbox D loc d t (start w)) = Ok false
  /\ trace (snd (click_checkbox D loc d t (start w)))
     = [(CWaitPresence t loc, Returned (VElem e));
        (CExecuteScript Script.scroll_into_view [AElem e], Returned VNone);
        (CSleep, Returned VNone);
        (CIsSelected e, Returned (VBool cur))] ++ trace s'.
Proof.
  intros E1 E2 E3 Hcur Hclick.
  unfold click_checkbox, click_checkbox_body.
  unfold until_presence_of_element_located, execute_script, is_selected.
  unfold bind, try_except, ret, log, sleep, invoke.
  cbn -[String.eqb click_element]. follow.
  replace (Bool.eqb cur d) with false
    by (destruct cur, d; try reflexivity; now elim Hcur).
  cbn -[String.eqb click_element].
  rewrite (framed_run (click_element D loc t) w3 _ _ (Raise x) s'
             (framed_click_element D loc t) Hclick).
  cbn -[String.eqb click_element]. step; cbn; auto.
Qed.

(** The control was read as being in the desired state: the final
    verification follows at once. *)
Lemma click_checkbox_rereads_after_noop loc d t w e w1 w2 w3 :
  drv_until_presence_of_element_located D t loc w = (Ok e, w1) ->
  drv_execute_script D Script.scroll_into_view [AElem e] w1 = (Ok tt, w2) ->
  drv_is_selected D e w2 = (Ok d, w3) ->
  ends_with_fresh_read D loc d w3
    [(CWaitPresence t loc, Returned (VElem e));
     (CExecuteScript Script.scroll_into_view [AElem e], Returned VNone);
     (CSleep, Returned VNone);
     (CIsSelected e, Returned (VBool d))]
    (fst (click_checkbox D loc d t (start w)))
    (trace (snd (click_checkbox D loc d t (start w)))).
Proof.
  intros E1 E2 E3. unfold ends_with_fresh_read.
  reduce. follow. rewrite eqb_reflx. cbn -[String.eqb].
  destruct (drv_find_element D loc w3) as [[fresh | x] w4];
    cbn -[String.eqb]; [| step; cbn; auto].
  destruct (drv_is_selected D fresh w4) as [[b | x] w5];
    cbn -[String.eqb]; [| step; cbn; auto].
  destruct (Bool.eqb b d); cbn; auto.
Qed.

(** The delegated click reported success: the final verification
    follows, from the world the click left. *)
Lemma click_checkbox_rereads_after_click loc d t w e w1 w2 cur w3 s' :
  drv_until_presence_of_element_located D t loc w = (Ok e, w1) ->
  drv_execute_script D Script.scroll_into_view [AElem e] w1 = (Ok tt, w2) ->
  drv_is_selected D e w2 = (Ok cur, w3) ->
  cur <> d ->
  click_element D loc t (start w3) = (Ok true, s') ->
  ends_with_fresh_read D loc d (world s')
    ([(CWaitPresence t loc, Returned (VElem e));
      (CExecuteScript Script.scroll_into_view [AElem e], Returned VNone);
      (CSleep, Returned VNone);
      (CIsSelected e, Returned (VBool cur))] ++ trace s')
    (fst (click_checkbox D loc d t (start w)))
    (trace (snd (click_checkbox D loc d t (start w)))).
Proof.
  intros E1 E2 E3 Hcur Hclick. unfold ends_with_fresh_read.
  unfold click_checkbox, click_checkbox_body, click_checkbox_verify.
  unfold until_presence_of_element_located, execute_script, is_selected,
    find_element.
  unfold bind, try_except, ret, log, sleep, invoke.
  cbn -[String.eqb click_element]. follow.
  replace (Bool.eqb cur d) with false
    by (destruct cur, d; try reflexivity; now elim Hcur).
  cbn -[String.eqb click_element].
  rewrite (framed_run (click_element D loc t) w3 _ _ (Ok true) s'
             (framed_click_element D loc t) Hclick).
  cbn -[String.eqb click_element].
  destruct (drv_find_element D loc (world s')) as [[fresh | x] w4];
    cbn -[String.eqb click_element];
    [| step; cbn; rewrite <- ?app_assoc; auto].
  destruct (drv_is_selected D fresh w4) as [[b | x] w5];
    cbn -[String.eqb click_element];
    [| step; cbn; rewrite <- ?app_assoc; auto].
  destruct (Bool.eqb b d); cbn; rewrite <- ?app_assoc; auto.
Qed.

End Checkbox.

(** C8.  For every driver: [click_checkbox] returns [True] if and only
    if its run ends with a fresh [find_element] followed by a read of
    the checked state that equals the desired state.  After the
    no-op, and after a delegated click that reported success, the
    next calls are that fresh [find_element] and the read of the
    checked state of what it found; they end the run, and the result
    is the comparison of the state read with the desired one
    ([False] when either call raises).  Whenever the delegated
    [click_element] reports failure (or raises) [click_checkbox]
    returns [False] at once: the events of the failed click are the
    last of the run. *)
Theorem click_checkbox_trusts_only_a_fresh_read
    (D : Driver) (w : World D) (loc : Locator) (d : bool) (t : Z) :
  let r := click_checkbox D loc d t (start w) in
  (fst r = Ok true <-> verified loc d (trace (snd r)))
  /\ (forall e w1 w2 cur w3,
         drv_until_presence_of_element_located D t loc w = (Ok e, w1) ->
         drv_execute_script D Script.scroll_into_view [AElem e] w1
         = (Ok tt, w2) ->
         drv_is_selected D e w2 = (Ok cur, w3) ->
         let pre := [(CWaitPresence t loc, Returned (VElem e));
                     (CExecuteScript Script.scroll_into_view [AElem e],
                      Returned VNone);
                     (CSleep, Returned VNone);
                     (CIsSelected e, Returned (VBool cur))] in
         (cur = d ->
          ends_with_fresh_read D loc d w3 pre (fst r) (trace (snd r)))
         /\ (forall s',
                cur <> d ->
                click_element D loc t (start w3) = (Ok true, s') ->
                ends_with_fresh_read D loc d (world s') (pre ++ trace s')
                  (fst r) (trace (snd r)))
         /\ (forall s',
                cur <> d ->
                click_element D loc t (start w3) = (Ok false, s') ->
                fst r = Ok false /\ trace (snd r) = pre ++ trace s')
         /\ (forall x s',
                cur <> d ->
                click_element D loc t (start w3) = (Raise x, s') ->
                fst r = Ok false /\ trace (snd r) = pre ++ trace s')).
Proof.
  intros r. subst r. split.
  - apply click_checkbox_true_iff_verified.
  - intros e w1 w2 cur w3 E1 E2 E3 pre. subst pre.
    split; [| split; [| split]].
    + intros ->.
      exact (click_checkbox_rereads_after_noop D loc d t w e w1 w2 w3 E1 E2 E3).
    + intros s' Hcur Hclick.
      exact (click_checkbox_rereads_after_click D loc d t w e w1 w2 cur w3 s'
               E1 E2 E3 Hcur Hclick).
    + intros s' Hcur Hclick.
      destruct (click_checkbox_stops_on_failed_click D loc d t w e w1 w2 cur w3
                  s' E1 E2 E3 Hcur Hclick) as (H1 & _ & H3).
      auto.
    + intros x s' Hcur Hclick.
      exact (click_checkbox_stops_on_raising_click D loc d t w e w1 w2 cur w3
               x s' E1 E2 E3 Hcur Hclick).
Qed.

(** The covered box: the delegated click goes through (by the forced
    click), then the box is located afresh and read as checked.  The
    hidden box: it is present and unchecked, the delegated click times
    out waiting for it to be clickable, and the toggle stops there. *)
Lemma click_checkbox_trusts_only_a_fresh_read_witness :
  (fst (click_checkbox Page.driver Sample.agree true 15
          (start Sample.covered_box)) = Ok true
   /\ trace (snd (click_checkbox Page.driver Sample.agree true 15
                    (start Sample.covered_box)))
      = [(CWaitPresence 15 Sample.agree, Returned (VElem 0));
         (CExecuteScript Script.scroll_into_view [AElem 0], Returned VNone);
         (CSleep, Returned VNone);
         (CIsSelected 0, Returned (VBool false));
         (CWaitInvisible 10 dimmer_holder, Returned VNone);
         (CWaitClickable 15 Sample.agree, Returned (VElem 0));
         (CExecuteScript Script.scroll_into_view [AElem 0], Returned VNone);
         (CSleep, Returned VNone);
         (CClick 0, Raised ElementClickInterceptedException);
         (CFindElement Sample.agree, Returned (VElem 0));
         (CExecuteScript Script.js_click [AElem 0], Returned VNone);
         (CFindElement Sample.agree, Returned (VElem 0));
         (CIsSelected 0, Returned (VBool true))])
  /\ (fst (click_checkbox Page.driver Sample.agree true 15
             (start Sample.hidden_box)) = Ok false
      /\ trace (snd (click_checkbox Page.driver Sample.agree true 15
                       (start Sample.hidden_box)))
         = [(CWaitPresence 15 Sample.agree, Returned (VElem 0));
            (CExecuteScript Script.scroll_into_view [AElem 0], Returned VNone);
            (CSleep, Returned VNone);
            (CIsSelected 0, Returned (VBool false));
            (CWaitInvisible 10 dimmer_holder, Returned VNone);
            (CWaitClickable 15 Sample.agree, Raised TimeoutException)]).
Proof.
  split.
  - exact (proj1 (proj2 (proj2 (click_checkbox_trusts_only_a_fresh_read
                            Page.driver Sample.covered_box Sample.agree true 15)
                         0 Sample.covered_box Sample.covered_box false
                         Sample.covered_box eq_refl eq_refl eq_refl))
                 (snd (click_element Page.driver Sample.agree 15
                         (start Sample.covered_box)))
                 (fun H => Bool.diff_false_true H) eq_refl).
  - exact (proj1 (proj2 (proj2 (proj2 (click_checkbox_trusts_only_a_fresh_read
                            Page.driver Sample.hidden_box Sample.agree true 15)
                         0 Sample.hidden_box Sample.hidden_box false
                         Sample.hidden_box eq_refl eq_refl eq_refl)))
                 (snd (click_element Page.driver Sample.agree 15
                         (start Sample.hidden_box)))
                 (fun H => Bool.diff_false_true H) eq_refl).
Defined.

(** ** C10: no click needed, the verification still runs *)

(** C10.  When [click_checkbox] reads the control as already in the
    desired state it clicks nothing, yet its result still hangs on the
    fresh re-location: if [find_element] raises, or the read of the
    fresh element raises, the helper returns [False]; if both return,
    the result is the comparison of the fresh state with the desired
    one. *)
Theorem click_checkbox_noop_still_verifies
    (D : Driver) (w : World D) (loc : Locator) (d : bool) (t : Z)
    (e : Element) (w1 w2 w3 : World D) :
  drv_until_presence_of_element_located D t loc w = (Ok e, w1) ->
  drv_execute_script D Script.scroll_into_view [AElem e] w1 = (Ok tt, w2) ->
  drv_is_selected D e w2 = (Ok d, w3) ->
  click_attempts (trace (snd (click_checkbox D loc d t (start w)))) = 0
  /\ (forall x w4,
         drv_find_element D loc w3 = (Raise x, w4) ->
         fst (click_checkbox D loc d t (start w)) = Ok false)
  /\ (forall fresh w4 x w5,
         drv_find_element D loc w3 = (Ok fresh, w4) ->
         drv_is_selected D fresh w4 = (Raise x, w5) ->
         fst (click_checkbox D loc d t (start w)) = Ok false)
  /\ (forall fresh w4 b w5,
         drv_find_element D loc w3 = (Ok fresh, w4) ->
         drv_is_selected D fresh w4 = (Ok b, w5) ->
         fst (click_checkbox D loc d t (start w)) = Ok (Bool.eqb b d)).
Proof.
  intros E1 E2 E3.
  unfold click_checkbox, click_checkbox_body, click_checkbox_verify.
  unfold until_presence_of_element_located, execute_script, is_selected,
    find_element.
  unfold bind, try_except, ret, log, sleep, invoke.
  cbn -[String.eqb click_element]. follow. rewrite eqb_reflx.
  cbn -[String.eqb click_element].
  split; [| split; [| split]].
  - destruct (drv_find_element D loc w3) as [[fresh | x] w4];
      cbn -[String.eqb click_element].
    + destruct (drv_is_selected D fresh w4) as [[b | x] w5];
        cbn -[String.eqb click_element].
      * destruct (Bool.eqb b d); reflexivity.
      * step; reflexivity.
    + step; reflexivity.
  - intros x w4 E4. follow. step; reflexivity.
  - intros fresh w4 x w5 E4 E5. follow. step; reflexivity.
  - intros fresh w4 b w5 E4 E5. follow. destruct (Bool.eqb b d); reflexivity.
Qed.

(** The box is checked and the helper is asked to check it; the fourth
    call of the run, the fresh [find_element], finds the control gone. *)
Lemma click_checkbox_noop_still_verifies_witness :
  fst (click_checkbox (Faulty.driver Page.driver) Sample.agree true 15
         (start (Sample.checked_box,
                 [None; None; None; Some NoSuchElementException])))
  = Ok false.
Proof.
  refine (proj1 (proj2 (click_checkbox_noop_still_verifies
                          (Faulty.driver Page.driver)
                          (Sample.checked_box,
                           [None; None; None; Some NoSuchElementException])
                          Sample.agree true 15 0
                          (Sample.checked_box,
                           [None; None; Some NoSuchElementException])
                          (Sample.checked_box, [None; Some NoSuchElementException])
                          (Sample.checked_box, [Some NoSuchElementException])
                          eq_refl eq_refl eq_refl))
                NoSuchElementException (Sample.checked_box, []) eq_refl).
Defined.

(** ** C9: the read-back of select_dropdown_option *)

(** The option is selected, then the list goes stale before the
    read-back: [first_selected_option], the fifth call, raises. *)
Lemma readback_does_not_gate_refuted :
  ~ readback_does_not_gate (Faulty.driver Page.driver) Sample.builtins
      (Sample.country_list,
       [None; None; None; None; Some StaleElementReferenceException])
      Sample.country "Spain" "visible_text" 15.
Proof.
  intros H.
  specialize (H 0 _ _ _ _ eq_refl eq_refl eq_refl eq_refl).
  vm_compute in H. discriminate.
Qed.

(** C9, amended.  Once the requested option was selected, the label
    read back is logged and never compared with the request:
    [select_dropdown_option] returns [True] for every label the
    read-back returns.  The read-back gates the outcome only by
    raising: when [first_selected_option] or [text] raises, the helper
    returns [False]. *)
Theorem readback_gates_only_by_raising
    (D : Driver) (py : Builtins) (w : World D) (loc : Locator)
    (option_text by_ : string) (t : Z) (e : Element) (w1 w2 w3 w4 : World D) :
  drv_until_presence_of_element_located D t loc w = (Ok e, w1) ->
  drv_execute_script D Script.scroll_into_view [AElem e] w1 = (Ok tt, w2) ->
  drv_Select D e w2 = (Ok tt, w3) ->
  requested_selection D py by_ option_text e w3 = Some (Ok tt, w4) ->
  let r := select_dropdown_option D py loc option_text by_ t (start w) in
  (forall o w5 label w6,
      drv_first_selected_option D e w4 = (Ok o, w5) ->
      drv_text D o w5 = (Ok label, w6) ->
      fst r = Ok true
      /\ last (logs (snd r)) (mkLog INFO "" [])
         = mkLog INFO "Successfully selected. Current value: '{selected_option}'"
                 [LStr (py_strip py label)])
  /\ (forall x w5,
         drv_first_selected_option D e w4 = (Raise x, w5) -> fst r = Ok false)
  /\ (forall o w5 x w6,
         drv_first_selected_option D e w4 = (Ok o, w5) ->
         drv_text D o w5 = (Raise x, w6) -> fst r = Ok false).
Proof.
  intros E1 E2 E3 Hsel r. subst r.
  unfold requested_selection in Hsel.
  reduce. follow.
  destruct (String.eqb by_ "visible_text");
    [| destruct (String.eqb by_ "value");
       [| destruct (String.eqb by_ "index");
          [destruct (py_int py option_text) |]]];
    try discriminate Hsel; injection Hsel as Hsel;
    cbn -[String.eqb]; follow.
  all: split; [| split].
  all: try (intros o w5 label w6 E5 E6; follow; split; reflexivity).
  all: try (intros x w5 E5; follow; repeat step; reflexivity).
  all: intros o w5 x w6 E5 E6; follow; repeat step; reflexivity.
Qed.

Lemma readback_gates_only_by_raising_witness :
  fst (select_dropdown_option Page.driver Sample.builtins Sample.country
         "Spain" "visible_text" 15 (start Sample.country_list)) = Ok true
  /\ last (logs (snd (select_dropdown_option Page.driver Sample.builtins
                        Sample.country "Spain" "visible_text" 15
                        (start Sample.country_list))))
          (mkLog INFO "" [])
     = mkLog INFO "Successfully selected. Current value: '{selected_option}'"
             [LStr "Spain"].
Proof.
  refine (proj1 (readback_gates_only_by_raising Page.driver Sample.builtins
                   Sample.country_list Sample.country "Spain" "visible_text"
                   15 0 Sample.country_list Sample.country_list
                   Sample.country_list _ eq_refl eq_refl eq_refl eq_refl)
                2 _ "Spain" _ eq_refl eq_refl).
Defined.

(** ** C7: idempotence of click_checkbox *)

Section Idempotence.

Context (D : Driver).






End Idempotence.

Section PageCheckbox.

Import Page.



End PageCheckbox.




(** ** Scenarios of the specification *)

(** Field [#email] initially empty, text "a@b.com": the field holds
    "a@b.com" and the result is [True]. *)
Example scenario_email :
  let r := input_text Page.driver Sample.email "a@b.com" default_timeout
             default_clear_first (start Sample.form) in
  fst r = Ok true
  /\ Page.observe Page.value Sample.email (world (snd r)) = Some "a@b.com".
Proof. split; reflexivity. Qed.

(** Checkbox [#agree] initially unchecked and covered, desired state
    true: the box receives one click, ends checked, result [True]. *)
Example scenario_agree :
  let r := click_checkbox Page.driver Sample.agree default_desired_state
             default_timeout (start Sample.covered_box) in
  fst r = Ok true
  /\ Page.observe Page.selected Sample.agree (world (snd r)) = Some true
  /\ Page.observe Page.events Sample.agree (world (snd r)) = Some ["click"].
Proof. repeat split; reflexivity. Qed.

(** Dropdown [#country], "France" is not an option: the result is
    [False] and the log lists the options there are. *)
Example scenario_country :
  let r := select_dropdown_option Page.driver Sample.builtins Sample.country
             "France" default_by default_timeout (start Sample.country_list) in
  fst r = Ok false
  /\ last (logs (snd r)) (mkLog INFO "" [])
     = mkLog INFO "Available options are: {all_options}"
             [LStrs ["Germany"; "Spain"]]
  /\ Page.observe Page.selected (By.XPATH, "//option[1]") (world (snd r))
     = Some true.
Proof. repeat split; reflexivity. Qed.

(** * Further properties of the helpers *)

(** ** Facts about the observations *)

Lemma recovered_cons (ev : Event) (tr : list Event) :
  tr <> [] -> recovered (ev :: tr) = exn_of ev ++ recovered tr.
Proof. destruct tr; [now intros [] | reflexivity]. Qed.

Lemma recovered_quiet_cons (ev : Event) (tr : list Event) :
  exn_of ev = [] -> recovered tr = [] -> recovered (ev :: tr) = [].
Proof.
  intros Hev Htr. destruct tr; [reflexivity |].
  rewrite recovered_cons by discriminate. now rewrite Hev, Htr.
Qed.

Lemma listing_count_zero (p : Call -> bool) (tail : list Event) :
  (forall c, is_listing_call c = true -> p c = false) ->
  Forall (fun ev => is_listing_call (fst ev) = true) tail ->
  count_calls p tail = 0.
Proof.
  intros Hp. induction 1 as [| ev tail Hc _ IH]; [reflexivity |].
  rewrite count_calls_cons, IH, (Hp _ Hc). reflexivity.
Qed.

Ltac solve_incl := unfold incl; cbn; intuition auto with datatypes.

Section ListingInFull.

Context (D : Driver).

(** Reading the texts of the options: the calls stop at the first one
    that raises, are aimed at the options only, and log nothing. *)
Lemma for_each_text_in_full (opts : list Element) (s : St (World D)) :
  exists r s' tail,
    for_each (fun opt => text opt) opts s = (r, s')
    /\ trace s' = trace s ++ tail
    /\ logs s' = logs s
    /\ Forall (fun ev => is_listing_call (fst ev) = true) tail
    /\ recovered tail = []
    /\ (forall known, incl opts known -> sourced known tail).
Proof.
  revert s. induction opts as [| o opts IH]; intros s; cbn [for_each].
  - exists (Ok []), s, []. rewrite app_nil_r.
    repeat (split; [first [reflexivity | constructor] |]). intros; exact I.
  - unfold bind at 1. unfold text at 1. unfold invoke.
    destruct (drv_text D o (world s)) as [[lbl | e] w1]; cbn.
    + unfold bind at 1.
      match goal with |- context [for_each _ opts ?s1] =>
        destruct (IH s1)
          as (r & s2 & tail & E & Etr & Elg & Hlist & Hrec & Hsrc)
      end.
      rewrite E. cbn in Etr, Elg.
      destruct r as [lbls | e]; cbn.
      all: eexists _, _, (_ :: tail); split; [reflexivity |];
        split; [rewrite Etr, <- app_assoc; reflexivity |];
        split; [exact Elg |];
        split; [constructor; [reflexivity | exact Hlist] |];
        split; [now apply recovered_quiet_cons |];
        intros known Hin; cbn; split;
        [ unfold incl; cbn; intros x [<- | []]; apply Hin; now left
        | apply Hsrc; intros x Hx; apply Hin; now right ].
    + eexists _, _, [_]. split; [reflexivity |]. split; [reflexivity |].
      split; [reflexivity |].
      split; [constructor; [reflexivity | constructor] |].
      split; [reflexivity |].
      intros known Hin. cbn. split; [| exact I].
      unfold incl; cbn. intros x [<- | []]. apply Hin. now left.
Qed.

(** Listing the options in full: it never raises; it starts by
    re-locating the dropdown, goes on only while the calls return, is
    aimed at what it located, and logs no error. *)
Lemma select_dropdown_list_options_in_full loc (s : St (World D)) :
  exists s' tail ltail,
    select_dropdown_list_options D loc s = (Ok tt, s')
    /\ trace s' = trace s ++ tail
    /\ logs s' = logs s ++ ltail
    /\ Forall (fun ev => is_listing_call (fst ev) = true) tail
    /\ tail <> []
    /\ recovered tail = []
    /\ (forall known, sourced known tail)
    /\ has_error ltail = false.
Proof.
  unfold select_dropdown_list_options, try_except.
  unfold bind at 1. unfold find_element at 1. unfold invoke.
  destruct (drv_find_element D loc (world s)) as [[el | e] w1]; cbn.
  2: { eexists _, [_], []. rewrite app_nil_r.
       split; [reflexivity |]. split; [reflexivity |]. split; [reflexivity |].
       split; [repeat constructor |]. split; [discriminate |].
       split; [reflexivity |]. split; [| reflexivity].
       intros known. cbn. split; [solve_incl | exact I]. }
  unfold bind at 1. unfold Select at 1. unfold invoke. cbn.
  destruct (drv_Select D el w1) as [[[] | e] w2]; cbn.
  2: { eexists _, [_; _], []. rewrite app_nil_r, <- app_assoc.
       split; [reflexivity |]. split; [reflexivity |]. split; [reflexivity |].
       split; [repeat constructor |]. split; [discriminate |].
       split; [reflexivity |]. split; [| reflexivity].
       intros known. cbn. split; [solve_incl |]. split; [solve_incl | exact I]. }
  unfold bind at 1. unfold options at 1. unfold invoke. cbn.
  destruct (drv_options D el w2) as [[opts | e] w3]; cbn.
  2: { eexists _, [_; _; _], []. rewrite app_nil_r, <- !app_assoc.
       split; [reflexivity |]. split; [reflexivity |]. split; [reflexivity |].
       split; [repeat constructor |]. split; [discriminate |].
       split; [reflexivity |]. split; [| reflexivity].
       intros known. cbn. split; [solve_incl |]. split; [solve_incl |].
       split; [solve_incl | exact I]. }
  unfold bind at 1.
  match goal with |- context [for_each _ opts ?s1] =>
    destruct (for_each_text_in_full opts s1)
      as (r & s2 & tail & E & Etr & Elg & Hlist & Hrec & Hsrc)
  end.
  rewrite E. cbn in Etr, Elg.
  assert (Hsourced : forall known,
             sourced known
               ((CFindElement loc, Returned (VElem el))
                :: (CSelect el, Returned VNone)
                :: (COptions el, Returned (VElems opts)) :: tail)).
  { intros known. cbn. split; [solve_incl |].
    split; [solve_incl |]. split; [solve_incl |].
    apply Hsrc. apply incl_appl, incl_refl. }
  assert (Hquiet : recovered
                     ((CFindElement loc, Returned (VElem el))
                      :: (CSelect el, Returned VNone)
                      :: (COptions el, Returned (VElems opts)) :: tail) = [])
    by (repeat (apply recovered_quiet_cons; [reflexivity |]); exact Hrec).
  destruct r as [lbls | e]; cbn.
  - eexists _, (_ :: _ :: _ :: tail), [_]. split; [reflexivity |].
    split; [rewrite Etr, <- !app_assoc; reflexivity |].
    split; [now rewrite Elg |].
    split; [repeat (constructor; [reflexivity |]); exact Hlist |].
    split; [discriminate |]. split; [exact Hquiet |].
    split; [exact Hsourced | reflexivity].
  - eexists _, (_ :: _ :: _ :: tail), []. split; [reflexivity |].
    split; [rewrite Etr, <- !app_assoc; reflexivity |].
    split; [now rewrite Elg, app_nil_r |].
    split; [repeat (constructor; [reflexivity |]); exact Hlist |].
    split; [discriminate |]. split; [exact Hquiet |].
    split; [exact Hsourced | reflexivity].
Qed.

End ListingInFull.

(** [run_in_full] is [run] with the listing of the options taken in
    full. *)
Ltac listing_in_full :=
  match goal with
  | |- context [select_dropdown_list_options ?D ?loc ?s] =>
      let w' := fresh "w" in
      let tr' := fresh "tr" in
      let lg' := fresh "lg" in
      let tail := fresh "tail" in
      let ltail := fresh "ltail" in
      let E := fresh "E" in
      let Etr := fresh "Etr" in
      let Elg := fresh "Elg" in
      let Hlist := fresh "Hlist" in
      let Hne := fresh "Hne" in
      let Hrec := fresh "Hrec" in
      let Hsrc := fresh "Hsrc" in
      let Herr := fresh "Herr" in
      destruct (select_dropdown_list_options_in_full D loc s)
        as ([w' tr' lg'] & tail & ltail & E & Etr & Elg & Hlist & Hne
            & Hrec & Hsrc & Herr);
      rewrite E; cbn -[String.eqb] in Etr, Elg; subst tr' lg';
      cbn -[String.eqb]
  end.

Ltac run_in_full := reduce; repeat first [listing_in_full | step].

Ltac split_cases :=
  repeat match goal with
         | H : _ \/ _ |- _ => destruct H as [H | H]
         | H : False |- _ => destruct H
         end.

(** ** Which exceptions a helper recovers from *)

Section Recovery.

Context (D : Driver) (py : Builtins).

(** X3.  In every run of [click_element] the only exception after
    which further calls are made is [ElementClickInterceptedException],
    and that happens at most once; a run whose last call raised
    returns [False], or, when the timeout has more than 4300 digits
    and so does not print in the log line, raises [ValueError]. *)
Theorem click_element_recovers_from_interception_only loc t (w : World D) :
  let r := click_element D loc t (start w) in
  (forall e, In e (recovered (trace (snd r))) ->
             e = ElementClickInterceptedException)
  /\ length (recovered (trace (snd r))) <= 1
  /\ (ended_raising (trace (snd r)) = true ->
      fst r = Ok false
      \/ (fst r = Raise ValueError /\ int_str_too_long t = true)).
Proof.
  run;
    (split;
     [ vm_compute; intros x Hx; split_cases; congruence
     | split;
       [ vm_compute; lia
       | first [ intros _; left; reflexivity
               | intros _; right; split; reflexivity
               | intros H; discriminate H ] ] ]).
Qed.

(** X2.  In every run of [input_text] at most one exception is
    followed by further calls, and it is never a [TimeoutException]: a
    timeout, wherever it is raised, ends the run; a run whose last
    call raised returns [False], or, when the timeout has more than
    4300 digits and so does not print in the log line, raises
    [ValueError]. *)
Theorem input_text_recovers_from_all_but_timeout loc txt t cf (w : World D) :
  let r := input_text D loc txt t cf (start w) in
  (forall e, In e (recovered (trace (snd r))) -> e <> TimeoutException)
  /\ length (recovered (trace (snd r))) <= 1
  /\ (ended_raising (trace (snd r)) = true ->
      fst r = Ok false
      \/ (fst r = Raise ValueError /\ int_str_too_long t = true)).
Proof.
  run;
    (split;
     [ vm_compute; intros x Hx; split_cases; congruence
     | split;
       [ vm_compute; lia
       | first [ intros _; left; reflexivity
               | intros _; right; split; reflexivity
               | intros H; discriminate H ] ] ]).
Qed.

(** X4.  In every run of [click_checkbox], the delegated click
    included, the only exception after which further calls are made is
    [ElementClickInterceptedException], at most once; a run whose last
    call raised returns [False]. *)
Theorem click_checkbox_recovers_from_interception_only loc d t (w : World D) :
  let r := click_checkbox D loc d t (start w) in
  (forall e, In e (recovered (trace (snd r))) ->
             e = ElementClickInterceptedException)
  /\ length (recovered (trace (snd r))) <= 1
  /\ (ended_raising (trace (snd r)) = true -> fst r = Ok false).
Proof.
  run; (split; [| split]); try (vm_compute; lia);
    try (intros _; reflexivity); try (intros H; discriminate H).
  all: vm_compute; intros x Hx; split_cases; congruence.
Qed.

(** X5.  In every run of [select_dropdown_option] the only exception
    after which further calls are made is [NoSuchElementException]
    (the options are listed), at most once; a run whose last call
    raised returns [False]. *)
Theorem select_dropdown_option_recovers_from_not_found_only loc o b t (w : World D) :
  let r := select_dropdown_option D py loc o b t (start w) in
  (forall e, In e (recovered (trace (snd r))) -> e = NoSuchElementException)
  /\ length (recovered (trace (snd r))) <= 1
  /\ (ended_raising (trace (snd r)) = true -> fst r = Ok false).
Proof.
  run_in_full; (split; [| split]); try (intros _; reflexivity);
    rewrite ?recovered_cons by (first [discriminate | assumption]);
    rewrite ?Hrec;
    try (vm_compute; lia); try (intros H; discriminate H).
  all: vm_compute; intros x Hx; split_cases; congruence.
Qed.

End Recovery.

(** ** What the calls of a run are, and what they are aimed at *)

Section CallDiscipline.

Context (D : Driver) (py : Builtins).

(** X1.  For every driver, [click_element] never gets more than one
    click through (standard or forced), and it returns [True] exactly
    when one click went through. *)
Theorem click_element_true_iff_one_click loc t (w : World D) :
  let r := click_element D loc t (start w) in
  successful_clicks (trace (snd r)) <= 1
  /\ (fst r = Ok true <-> successful_clicks (trace (snd r)) = 1).
Proof.
  run; vm_compute; (split; [lia |]); split; intros H;
    first [reflexivity | discriminate H].
Qed.

(** X6.  In every run of [input_text]: when step 4 found the field
    disabled or read-only, neither [clear()] nor [send_keys()] is ever
    called; when it did not, the scripts that clear the read-only and
    disabled flags are never run; and with [clear_first=False]
    [clear()] is never called. *)
Theorem input_text_types_or_forces_never_both loc txt t cf (w : World D) :
  let tr := trace (snd (input_text D loc txt t cf (start w))) in
  (found_not_interactable tr = true -> count_calls is_typing_call tr = 0)
  /\ (found_not_interactable tr = false -> count_calls is_flag_script tr = 0)
  /\ (cf = false -> count_calls (fun c => match c with
                                          | CClear _ => true
                                          | _ => false
                                          end) tr = 0).
Proof.
  run; cbn -[String.eqb count_calls];
    repeat match goal with H : truthy _ = _ |- _ => rewrite H end;
    cbn -[String.eqb count_calls];
    (split; [| split]); intros H; first [discriminate H | reflexivity].
Qed.

Lemma input_text_sourced loc txt t cf (w : World D) :
  sourced [] (trace (snd (input_text D loc txt t cf (start w)))).
Proof. run; cbn; repeat split; solve_incl. Qed.

Lemma click_element_sourced loc t (w : World D) :
  sourced [] (trace (snd (click_element D loc t (start w)))).
Proof. run; cbn; repeat split; solve_incl. Qed.

Lemma click_checkbox_sourced loc d t (w : World D) :
  sourced [] (trace (snd (click_checkbox D loc d t (start w)))).
Proof. run; cbn; repeat split; solve_incl. Qed.

Lemma select_dropdown_option_sourced loc o b t (w : World D) :
  sourced [] (trace (snd (select_dropdown_option D py loc o b t (start w)))).
Proof. run_in_full; cbn; repeat split; try solve_incl; apply Hsrc. Qed.

End CallDiscipline.

(** ** Failures are reported in the log *)

Section Logging.

Context (D : Driver) (py : Builtins).

Lemma input_text_logs_errors loc txt t cf (w : World D) :
  let r := input_text D loc txt t cf (start w) in
  (fst r = Ok false -> has_error (logs (snd r)) = true)
  /\ (has_error (logs (snd r)) = false <->
      (fst r = Ok true /\ count_calls is_find_element (trace (snd r)) = 0)
      \/ fst r = Raise ValueError).
Proof.
  run; cbn -[String.eqb count_calls has_error];
    (split; [| split]); intros H;
    first [ reflexivity | discriminate H
          | now (left; split) | now right
          | destruct H as [[H1 H2] | H];
            first [discriminate H1 | discriminate H2 | discriminate H] ].
Qed.

Lemma click_element_logs_errors loc t (w : World D) :
  let r := click_element D loc t (start w) in
  fst r = Ok false <-> has_error (logs (snd r)) = true.
Proof.
  run; vm_compute; split; intros H; first [reflexivity | discriminate H].
Qed.

Lemma click_checkbox_logs_errors loc d t (w : World D) :
  let r := click_checkbox D loc d t (start w) in
  fst r = Ok false <-> has_error (logs (snd r)) = true.
Proof.
  run; vm_compute; split; intros H; first [reflexivity | discriminate H].
Qed.

Lemma select_dropdown_option_logs_errors loc o b t (w : World D) :
  let r := select_dropdown_option D py loc o b t (start w) in
  fst r = Ok false <-> has_error (logs (snd r)) = true.
Proof.
  run_in_full; cbn; split; intros H; first [reflexivity | discriminate H].
Qed.

(** X9.  When the mode is none of "visible_text", "value", "index", or
    the mode is "index" and the text is no integer,
    [select_dropdown_option] returns [False] for every driver and
    makes neither a selection call nor a read-back. *)
Theorem select_dropdown_option_without_valid_request loc o b t (w : World D) :
  no_selection_requested py b o = true ->
  let r := select_dropdown_option D py loc o b t (start w) in
  fst r = Ok false
  /\ count_calls is_selection_call (trace (snd r)) = 0
  /\ count_calls is_read_back_call (trace (snd r)) = 0.
Proof.
  unfold no_selection_requested.
  run_in_full; intros H; try discriminate H.
  all: rewrite ?count_calls_cons,
         ?(listing_count_zero is_selection_call tail),
         ?(listing_count_zero is_read_back_call tail);
    try assumption; try (now intros [] Hc); auto.
Qed.

End Logging.

(** ** Computations that leave the world as it is *)

Lemma keeps_world_ret {W A} (a : A) : keeps_world (@ret W A a).
Proof. intros s. reflexivity. Qed.

Lemma keeps_world_log {W} l t fs : keeps_world (@log W l t fs).
Proof. intros s. reflexivity. Qed.

Lemma keeps_world_invoke {W A} (inj : A -> Value) c (op : W -> result A * W) :
  (forall w, snd (op w) = w) -> keeps_world (invoke inj c op).
Proof.
  intros Hop s. unfold invoke. specialize (Hop (world s)).
  destruct (op (world s)) as [r w']. exact Hop.
Qed.

Lemma keeps_world_bind {W A B} (m : M W A) (k : A -> M W B) :
  keeps_world m -> (forall a, keeps_world (k a)) -> keeps_world (bind m k).
Proof.
  intros Hm Hk s. unfold bind. specialize (Hm s).
  destruct (m s) as [[a | e] s1]; cbn in *; [| exact Hm].
  now rewrite (Hk a s1).
Qed.

Lemma keeps_world_try_except {W A} (body : M W A) (handler : Exn -> M W A) :
  keeps_world body -> (forall e, keeps_world (handler e)) ->
  keeps_world (try_except body handler).
Proof.
  intros Hb Hh s. unfold try_except. specialize (Hb s).
  destruct (body s) as [[a | e] s1]; cbn in *; [exact Hb |].
  now rewrite (Hh e s1).
Qed.

Lemma keeps_world_for_each {W A B} (f : A -> M W B) (l : list A) :
  (forall a, keeps_world (f a)) -> keeps_world (for_each f l).
Proof.
  intros Hf. induction l as [| a l IH]; cbn [for_each].
  - apply keeps_world_ret.
  - apply keeps_world_bind; [apply Hf |]. intros b.
    apply keeps_world_bind; [exact IH |]. intros bs. apply keeps_world_ret.
Qed.

(** ** More paths through the helpers *)

Section MorePaths.

Context (D : Driver) (py : Builtins).

Lemma click_element_standard_path loc t w w1 e w2 w3 w4 :
  drv_until_invisibility_of_element_located D 10 dimmer_holder w = (Ok tt, w1) ->
  drv_until_element_to_be_clickable D t loc w1 = (Ok e, w2) ->
  drv_execute_script D Script.scroll_into_view [AElem e] w2 = (Ok tt, w3) ->
  drv_click D e w3 = (Ok tt, w4) ->
  fst (click_element D loc t (start w)) = Ok true
  /\ world (snd (click_element D loc t (start w))) = w4.
Proof. intros E1 E2 E3 E4. reduce. follow. auto. Qed.

Lemma click_element_forced_path loc t w w1 e w2 w3 w4 e' w5 w6 :
  drv_until_invisibility_of_element_located D 10 dimmer_holder w = (Ok tt, w1) ->
  drv_until_element_to_be_clickable D t loc w1 = (Ok e, w2) ->
  drv_execute_script D Script.scroll_into_view [AElem e] w2 = (Ok tt, w3) ->
  drv_click D e w3 = (Raise ElementClickInterceptedException, w4) ->
  drv_find_element D loc w4 = (Ok e', w5) ->
  drv_execute_script D Script.js_click [AElem e'] w5 = (Ok tt, w6) ->
  fst (click_element D loc t (start w)) = Ok true
  /\ world (snd (click_element D loc t (start w))) = w6.
Proof. intros E1 E2 E3 E4 E5 E6. reduce. follow. reduce. follow. auto. Qed.

(** A wait of [click_element] that times out ends it. *)
Lemma click_element_timeout_paths loc t w :
  int_str_too_long t = false ->
  (fst (drv_until_invisibility_of_element_located D 10 dimmer_holder w)
   = Raise TimeoutException ->
   fst (click_element D loc t (start w)) = Ok false
   /\ world (snd (click_element D loc t (start w)))
      = snd (drv_until_invisibility_of_element_located D 10 dimmer_holder w))
  /\ (forall w1 w2,
         drv_until_invisibility_of_element_located D 10 dimmer_holder w
         = (Ok tt, w1) ->
         drv_until_element_to_be_clickable D t loc w1
         = (Raise TimeoutException, w2) ->
         fst (click_element D loc t (start w)) = Ok false
         /\ world (snd (click_element D loc t (start w))) = w2).
Proof.
  intros Ht. split.
  - intros H.
    pose proof (click_element_body_stops_at_overlay_timeout D w loc t H) as Hb.
    destruct (click_element_on_timeout D loc t w) as (Hw & _ & Hok & _);
      [now rewrite Hb |].
    rewrite Hb in Hw. destruct (Hok Ht) as [Hres _]. auto.
  - intros w1 w2 E1 E2. reduce. follow. unfold format_int. rewrite Ht.
    cbn. auto.
Qed.

(** The presence wait raised because the timeout is beyond float
    range: the helper returns [False] at once. *)
Lemma select_dropdown_option_overflow_path loc o b t w w1 :
  drv_until_presence_of_element_located D t loc w = (Raise OverflowError, w1) ->
  fst (select_dropdown_option D py loc o b t (start w)) = Ok false
  /\ world (snd (select_dropdown_option D py loc o b t (start w))) = w1.
Proof. intros E1. reduce. follow. auto. Qed.

(** The requested option is not found: the helper reports that,
    lists what there is, and returns [False] without another
    selection. *)
Lemma select_dropdown_option_not_found_path loc o b t w e w1 w2 w3 w4 :
  drv_until_presence_of_element_located D t loc w = (Ok e, w1) ->
  drv_execute_script D Script.scroll_into_view [AElem e] w1 = (Ok tt, w2) ->
  drv_Select D e w2 = (Ok tt, w3) ->
  requested_selection D py b o e w3 = Some (Raise NoSuchElementException, w4) ->
  let r := select_dropdown_option D py loc o b t (start w) in
  fst r = Ok false
  /\ count_calls is_selection_call (trace (snd r)) = 1
  /\ count_calls is_read_back_call (trace (snd r)) = 0
  /\ (exists pre tail,
         trace (snd r) = pre ++ tail /\ length pre = 5
         /\ Forall (fun ev => is_listing_call (fst ev) = true) tail)
  /\ In (mkLog ERROR "Option '{option_text}' not found in dropdown {locator}."
               [LStr o; LLoc loc]) (logs (snd r))
  /\ (keeps_world (select_dropdown_list_options D loc) -> world (snd r) = w4).
Proof.
  intros E1 E2 E3 Hsel r. subst r.
  unfold requested_selection in Hsel.
  reduce. follow.
  destruct (String.eqb b "visible_text");
    [| destruct (String.eqb b "value");
       [| destruct (String.eqb b "index");
          [destruct (py_int py o) |]]];
    try discriminate Hsel; injection Hsel as Hsel;
    cbn -[String.eqb]; follow; reduce; listing_in_full.
  all: split; [reflexivity |].
  all: split;
    [ rewrite !count_calls_cons,
        (listing_count_zero is_selection_call tail)
        by (try assumption; now intros [] Hc); reflexivity |].
  all: split;
    [ rewrite !count_calls_cons,
        (listing_count_zero is_read_back_call tail)
        by (try assumption; now intros [] Hc); reflexivity |].
  all: split; [eexists [_; _; _; _; _], tail; repeat split; assumption |].
  all: split; [cbn; auto |].
  all: intros Hkeeps;
    match type of E with ?m ?s = _ =>
      pose proof (Hkeeps s) as Hw; rewrite E in Hw; exact Hw
    end.
Qed.

End MorePaths.

(** ** The helpers on the reference page *)

Section OnThePage.

Import Page.


(** A call that only reads a node leaves the page as it is. *)
Lemma on_node_reads {A} (p : Page) e (act : Node -> result A * Node) :
  (forall n, snd (act n) = n) -> snd (on_node e act p) = p.
Proof.
  intros Hact. unfold on_node.
  destruct (nth_error p e) as [n |] eqn:Hn; [| reflexivity].
  specialize (Hact n). destruct (act n) as [r n']. cbn in *. subst n'.
  exact (put_self p e n Hn).
Qed.

Lemma page_not_clickable_input_text (p : Page) loc txt t cf :
  fst (wait_clickable t loc p) = Raise TimeoutException ->
  fst (input_text driver loc txt t cf (start p)) = Ok false
  /\ world (snd (input_text driver loc txt t cf (start p))) = p.
Proof.
  intros H. apply wait_clickable_timeout in H. destruct H as [Ht H].
  pose proof (in_float_range_prints t Ht) as Hprints.
  destruct (wait_for_overlay_cases p) as [Hov | Hov].
  - destruct (input_text_timeout_path driver loc txt t cf p p p Hprints Hov H)
      as (H1 & H2 & _). auto.
  - destruct (input_text_stops_at_overlay_timeout driver p loc txt t cf Hprints)
      as (H1 & H2 & _).
    + cbn. now rewrite Hov.
    + cbn [driver drv_until_invisibility_of_element_located] in H2.
      rewrite Hov in H2. auto.
Qed.

Lemma page_not_clickable_click_element (p : Page) loc t :
  fst (wait_clickable t loc p) = Raise TimeoutException ->
  fst (click_element driver loc t (start p)) = Ok false
  /\ world (snd (click_element driver loc t (start p))) = p.
Proof.
  intros H. apply wait_clickable_timeout in H. destruct H as [Ht H].
  destruct (click_element_timeout_paths driver loc t p
              (in_float_range_prints t Ht)) as [Hover Helem].
  destruct (wait_for_overlay_cases p) as [Hov | Hov].
  - exact (Helem p p Hov H).
  - destruct Hover as [H1 H2]; [cbn; now rewrite Hov |].
    cbn [driver drv_until_invisibility_of_element_located] in H2.
    rewrite Hov in H2. auto.
Qed.

(** A clickable node receives exactly one click, through the standard
    click or, when it is covered, through the forced one. *)
Lemma page_click_element_clicks_once (p : Page) loc t e n :
  locate loc p = Some (e, n) ->
  displayed n = true -> enabled n = true ->
  fst (wait_invisible 10 dimmer_holder p) = Ok tt ->
  float_overflows t = false ->
  fst (click_element driver loc t (start p)) = Ok true
  /\ world (snd (click_element driver loc t (start p)))
     = put e (receive_click n) p.
Proof.
  intros Hloc Hd He Hov Ht. pose proof (locate_nth _ _ _ _ Hloc) as Hn.
  apply wait_invisible_ok in Hov.
  assert (Eclickable : wait_clickable t loc p = (Ok e, p))
    by now apply (wait_clickable_ready p t loc e n).
  assert (Escroll : script Script.scroll_into_view [AElem e] p = (Ok tt, p))
    by (cbn; rewrite (on_node_at p e n _ Hn); cbn; now rewrite put_self).
  destruct (covered n) eqn:Hc.
  - apply (click_element_forced_path driver loc t p p e p p p e p);
      cbn; try assumption.
    + unfold click_node. rewrite (on_node_at p e n _ Hn).
      rewrite Hd, Hc. cbn. now rewrite put_self.
    + unfold find. now rewrite Hloc.
    + rewrite (on_node_at p e n _ Hn). cbn. now rewrite He.
  - apply (click_element_standard_path driver loc t p p e p p);
      cbn; try assumption.
    unfold click_node. rewrite (on_node_at p e n _ Hn).
    rewrite Hd, Hc, He. reflexivity.
Qed.

(** On the page, listing the options changes nothing. *)
Lemma page_listing_world loc (s : St Page) :
  world (snd (select_dropdown_list_options driver loc s)) = world s.
Proof.
  apply keeps_world_try_except; [| intros; apply keeps_world_ret].
  apply keeps_world_bind.
  { apply keeps_world_invoke. intros p. cbn. unfold find.
    now destruct (locate loc p) as [[el n] |]. }
  intros el. apply keeps_world_bind.
  { apply keeps_world_invoke. intros p. cbn. unfold select_ctor.
    apply on_node_reads. intros m. now destruct (kind m). }
  intros _. apply keeps_world_bind.
  { apply keeps_world_invoke. intros p. cbn. unfold options_of.
    now apply on_node_reads. }
  intros opts. apply keeps_world_bind; [| intros; apply keeps_world_log].
  apply keeps_world_for_each. intros o.
  apply keeps_world_invoke. intros p. cbn. unfold text_of.
  now apply on_node_reads.
Qed.

End OnThePage.

Section OnThePageMore.

Import Page.

(** X14.  On the reference page, a checkbox that is not in the desired
    state and cannot be clicked (not displayed, or disabled) makes
    [click_checkbox] return [False] and stays as it was. *)
Theorem click_checkbox_not_clickable_leaves_box (p : Page) loc d t e n :
  locate loc p = Some (e, n) -> selected n = negb d ->
  fst (wait_clickable t loc p) = Raise TimeoutException ->
  fst (click_checkbox driver loc d t (start p)) = Ok false
  /\ world (snd (click_checkbox driver loc d t (start p))) = p.
Proof.
  intros Hloc Hs Hwait. pose proof (locate_nth _ _ _ _ Hloc) as Hn.
  destruct (page_not_clickable_click_element p loc t Hwait) as [Hc1 Hc2].
  destruct (wait_clickable_timeout p t loc Hwait) as [Ht _].
  destruct (click_checkbox_stops_on_failed_click driver loc d t
              p e p p (negb d) p
              (snd (click_element driver loc t (start p))))
    as (H1 & H2 & _); cbn [driver drv_until_presence_of_element_located
                            drv_execute_script drv_is_selected].
  - now apply (wait_presence_found p t loc e n).
  - cbn. rewrite (on_node_at p e n _ Hn). cbn. now rewrite put_self.
  - unfold selected_of. rewrite (on_node_at p e n _ Hn). cbn.
    now rewrite Hs, put_self.
  - now destruct d.
  - rewrite <- Hc1. apply surjective_pairing.
  - split; [exact H1 | exact (eq_trans H2 Hc2)].
Qed.

(** X11.  On the reference page, a selection that the dropdown rejects
    as not found (no option with that label or value, or no option at
    that index) makes [select_dropdown_option] return [False] and
    leaves the page, and with it the current selection, as it was. *)
Theorem select_dropdown_option_not_found_keeps_selection (py : Builtins) (p : Page) loc o b t e n :
  locate loc p = Some (e, n) -> kind n = SelectBox ->
  requested_selection driver py b o e p
  = Some (Raise NoSuchElementException, p) ->
  fst (select_dropdown_option driver py loc o b t (start p)) = Ok false
  /\ world (snd (select_dropdown_option driver py loc o b t (start p))) = p.
Proof.
  intros Hloc Hk Hsel. pose proof (locate_nth _ _ _ _ Hloc) as Hn.
  destruct (float_overflows t) eqn:Ht.
  { apply (select_dropdown_option_overflow_path driver py loc o b t p p).
    cbn. unfold wait_presence. now rewrite Ht. }
  destruct (select_dropdown_option_not_found_path driver py loc o b t
              p e p p p p) as (H1 & _ & _ & _ & _ & H6);
    cbn [driver drv_until_presence_of_element_located drv_execute_script
         drv_Select]; try assumption.
  - now apply (wait_presence_found p t loc e n).
  - cbn. rewrite (on_node_at p e n _ Hn). cbn. now rewrite put_self.
  - unfold select_ctor. rewrite (on_node_at p e n _ Hn), Hk. cbn.
    now rewrite put_self.
  - split; [exact H1 |]. apply H6. intros s. apply page_listing_world.
Qed.

End OnThePageMore.

(** ** Further properties, helper by helper *)

(** X7.  Every call of a helper is aimed at an element that an earlier
    call of the same run returned (a wait, a [find_element], the
    selected option, the options of the dropdown): no helper acts on
    an element reference it did not obtain itself. *)
Theorem helpers_use_only_elements_they_located
    (D : Driver) (py : Builtins) (w : World D) (loc : Locator) :
  (forall txt t cf,
      sourced [] (trace (snd (input_text D loc txt t cf (start w)))))
  /\ (forall t, sourced [] (trace (snd (click_element D loc t (start w)))))
  /\ (forall d t, sourced [] (trace (snd (click_checkbox D loc d t (start w)))))
  /\ (forall o b t,
         sourced []
           (trace (snd (select_dropdown_option D py loc o b t (start w))))).
Proof.
  split; [| split; [| split]]; intros.
  - apply input_text_sourced.
  - apply click_element_sourced.
  - apply click_checkbox_sourced.
  - apply select_dropdown_option_sourced.
Qed.

(** X8.  A failure that is returned is always reported: whenever a
    helper returns [False] its log holds an ERROR record.
    [click_element], [click_checkbox] and [select_dropdown_option] log
    an ERROR record only when they return [False]; [input_text] logs
    none exactly when it returns [True] without having gone to the
    fallback, or when it raises [ValueError] (the message of the
    timeout clause could not be built, so nothing was logged). *)
Theorem failures_are_logged_as_errors
    (D : Driver) (py : Builtins) (w : World D) (loc : Locator) :
  (forall txt t cf,
      let r := input_text D loc txt t cf (start w) in
      (fst r = Ok false -> has_error (logs (snd r)) = true)
      /\ (has_error (logs (snd r)) = false <->
          (fst r = Ok true
           /\ count_calls is_find_element (trace (snd r)) = 0)
          \/ fst r = Raise ValueError))
  /\ (forall t,
         let r := click_element D loc t (start w) in
         fst r = Ok false <-> has_error (logs (snd r)) = true)
  /\ (forall d t,
         let r := click_checkbox D loc d t (start w) in
         fst r = Ok false <-> has_error (logs (snd r)) = true)
  /\ (forall o b t,
         let r := select_dropdown_option D py loc o b t (start w) in
         fst r = Ok false <-> has_error (logs (snd r)) = true).
Proof.
  split; [| split; [| split]]; intros.
  - apply input_text_logs_errors.
  - apply click_element_logs_errors.
  - apply click_checkbox_logs_errors.
  - apply select_dropdown_option_logs_errors.
Qed.

Lemma select_dropdown_option_without_valid_request_witness :
  fst (select_dropdown_option Page.driver Sample.builtins Sample.country
         "Spain" "label" 15 (start Sample.country_list)) = Ok false
  /\ fst (select_dropdown_option Page.driver Sample.builtins Sample.country
            "second" "index" 15 (start Sample.country_list)) = Ok false.
Proof.
  split.
  - exact (proj1 (select_dropdown_option_without_valid_request
                    Page.driver Sample.builtins Sample.country
                    "Spain" "label" 15 Sample.country_list eq_refl)).
  - exact (proj1 (select_dropdown_option_without_valid_request
                    Page.driver Sample.builtins Sample.country
                    "second" "index" 15 Sample.country_list eq_refl)).
Defined.

(** X10.  When the requested selection raises
    [NoSuchElementException], [select_dropdown_option] logs that the
    option was not found and returns [False]; the failed selection is
    the only selection call of the run, no read-back is made, and the
    calls that follow only list the options ([find_element], [Select],
    [options], [text]), whose failure changes nothing in the result. *)
Theorem select_dropdown_option_option_not_found
    (D : Driver) (py : Builtins) (w : World D) (loc : Locator)
    (o b : string) (t : Z) (e : Element) (w1 w2 w3 w4 : World D) :
  drv_until_presence_of_element_located D t loc w = (Ok e, w1) ->
  drv_execute_script D Script.scroll_into_view [AElem e] w1 = (Ok tt, w2) ->
  drv_Select D e w2 = (Ok tt, w3) ->
  requested_selection D py b o e w3 = Some (Raise NoSuchElementException, w4) ->
  let r := select_dropdown_option D py loc o b t (start w) in
  fst r = Ok false
  /\ count_calls is_selection_call (trace (snd r)) = 1
  /\ count_calls is_read_back_call (trace (snd r)) = 0
  /\ (exists pre tail,
         trace (snd r) = pre ++ tail /\ length pre = 5
         /\ Forall (fun ev => is_listing_call (fst ev) = true) tail)
  /\ In (mkLog ERROR "Option '{option_text}' not found in dropdown {locator}."
               [LStr o; LLoc loc]) (logs (snd r)).
Proof.
  intros E1 E2 E3 Hsel r.
  destruct (select_dropdown_option_not_found_path D py loc o b t w e
              w1 w2 w3 w4 E1 E2 E3 Hsel) as (H1 & H2 & H3 & H4 & H5 & _).
  auto.
Qed.

Lemma select_dropdown_option_option_not_found_witness :
  fst (select_dropdown_option Page.driver Sample.builtins Sample.country
         "France" "visible_text" 15 (start Sample.country_list)) = Ok false
  /\ count_calls is_selection_call
       (trace (snd (select_dropdown_option Page.driver Sample.builtins
                      Sample.country "France" "visible_text" 15
                      (start Sample.country_list)))) = 1.
Proof.
  destruct (select_dropdown_option_option_not_found Page.driver
              Sample.builtins Sample.country_list Sample.country
              "France" "visible_text" 15 0 Sample.country_list
              Sample.country_list Sample.country_list Sample.country_list
              eq_refl eq_refl eq_refl eq_refl) as (H1 & H2 & _).
  split; [exact H1 | exact H2].
Defined.

Lemma select_dropdown_option_not_found_keeps_selection_witness :
  world (snd (select_dropdown_option Page.driver Sample.builtins
                Sample.country "FR" "value" 15 (start Sample.country_list)))
  = Sample.country_list.
Proof.
  exact (proj2 (select_dropdown_option_not_found_keeps_selection
                  Sample.builtins Sample.country_list Sample.country
                  "FR" "value" 15 0 _ eq_refl eq_refl eq_refl)).
Defined.

(** X12.  On the reference page, [click_element] with a timeout within
    float range, on a displayed, enabled element with the loading
    overlay not shown, returns [True] and the element receives exactly
    one click, whether the standard click reaches it or, the element
    being covered, the forced click does; a checkbox is flipped
    once. *)
Theorem click_element_registers_one_click
    (p : Page.Page) (loc : Locator) (t : Z) (e : Element) (n : Page.Node) :
  Page.locate loc p = Some (e, n) ->
  Page.displayed n = true -> Page.enabled n = true ->
  fst (Page.wait_invisible 10 dimmer_holder p) = Ok tt ->
  float_overflows t = false ->
  let r := click_element Page.driver loc t (start p) in
  fst r = Ok true
  /\ Page.observe Page.events loc (world (snd r))
     = Some (Page.events n ++ ["click"])
  /\ Page.observe Page.selected loc (world (snd r))
     = Some (match Page.kind n with
             | Page.Checkbox => negb (Page.selected n)
             | _ => Page.selected n
             end).
Proof.
  intros Hloc Hd He Hov Ht r.
  destruct (page_click_element_clicks_once p loc t e n Hloc Hd He Hov Ht)
    as [H1 H2].
  split; [exact H1 |].
  replace (world (snd r)) with (put e (Page.receive_click n) p)
    by (symmetry; exact H2).
  unfold Page.observe.
  rewrite (locate_put_same loc p e n (Page.receive_click n) Hloc)
    by (unfold Page.receive_click; now destruct (Page.kind n)).
  unfold Page.receive_click. now destruct (Page.kind n).
Qed.

Lemma click_element_registers_one_click_witness :
  fst (click_element Page.driver Sample.agree 15 (start Sample.covered_box))
  = Ok true
  /\ Page.observe Page.events Sample.agree
       (world (snd (click_element Page.driver Sample.agree 15
                      (start Sample.covered_box))))
     = Some ["click"].
Proof.
  destruct (click_element_registers_one_click Sample.covered_box Sample.agree
              15 0 _ eq_refl eq_refl eq_refl eq_refl eq_refl) as (H1 & H2 & _).
  split; [exact H1 | exact H2].
Defined.

(** X13.  On the reference page, when the timeout is within float
    range and the locator finds no displayed, enabled element, so that
    the wait for a clickable element times out, [input_text] and
    [click_element] return [False] and leave the page exactly as it
    was. *)
Theorem failed_wait_leaves_page_untouched
    (p : Page.Page) (loc : Locator) (txt : string) (t : Z) (cf : bool) :
  float_overflows t = false ->
  fst (Page.wait_clickable t loc p) = Raise TimeoutException ->
  (fst (input_text Page.driver loc txt t cf (start p)) = Ok false
   /\ world (snd (input_text Page.driver loc txt t cf (start p))) = p)
  /\ (fst (click_element Page.driver loc t (start p)) = Ok false
      /\ world (snd (click_element Page.driver loc t (start p))) = p).
Proof.
  intros _ H. split.
  - now apply page_not_clickable_input_text.
  - now apply page_not_clickable_click_element.
Qed.

Lemma failed_wait_leaves_page_untouched_witness :
  world (snd (input_text Page.driver Sample.email "a@b.com" 15 true
                (start Sample.hidden_form))) = Sample.hidden_form
  /\ world (snd (click_element Page.driver Sample.missing 15
                   (start Sample.form))) = Sample.form.
Proof.
  split.
  - exact (proj2 (proj1 (failed_wait_leaves_page_untouched Sample.hidden_form
                           Sample.email "a@b.com" 15 true eq_refl eq_refl))).
  - exact (proj2 (proj2 (failed_wait_leaves_page_untouched Sample.form
                           Sample.missing "" 15 true eq_refl eq_refl))).
Defined.

Lemma click_checkbox_not_clickable_leaves_box_witness :
  fst (click_checkbox Page.driver Sample.agree true 15
         (start Sample.hidden_box)) = Ok false
  /\ world (snd (click_checkbox Page.driver Sample.agree true 15
                   (start Sample.hidden_box))) = Sample.hidden_box.
Proof.
  exact (click_checkbox_not_clickable_leaves_box Sample.hidden_box
           Sample.agree true 15 0 _ eq_refl eq_refl eq_refl).
Defined.
